(** * Smart Card Payment System: the HTTP handlers of [main.py] and the
      notification helpers of [utils/sms_utils.py], embedded over an explicit
      record store.

    Layout:
    - [Py]      Python values, exceptions and the arithmetic the handlers use
                (binary64 floats are Rocq's primitive floats);
    - [Mongo]   the three collections, with [find_one], [update_one],
                [find_one_and_update], [insert_one] and a sorted [find];
    - [Sms]     [utils/sms_utils.py];
    - [Api]     the handlers of [main.py], in a state-and-exception monad;
    - [Scenario] a campus with a few students and vendors;
    - theorems about the handlers. *)

From Stdlib Require Import ZArith Floats Lia Bool Sorted Permutation.
From stdpp Require Import gmap strings list pretty.

Local Open Scope string_scope.
Local Open Scope Z_scope.

(* ===================================================================== *)
(** * Python values and exceptions                                         *)
(* ===================================================================== *)

Module Py.

(** The scalar values that occur in the stored documents and in the JSON
    bodies: [None], [int], [float], [str], [datetime.datetime] (as a count of
    microseconds) and [bson.ObjectId] (by its 24-digit hexadecimal text). *)
Inductive value : Type :=
  | VNone
  | VInt (z : Z)
  | VFloat (f : float)
  | VStr (s : string)
  | VDate (t : Z)
  | VOid (hex : string).

(** A Python [dict] with string keys (a stored document, a JSON body). *)
Abbreviation document := (gmap string value).

(** The exceptions the handlers can see. Every constructor is a subclass of
    Python's [Exception]; [HTTPException] is FastAPI's. [ExternalError] is
    any exception raised inside a client library (gateway, SMS provider,
    pydantic). *)
Inductive exn : Type :=
  | HTTPException (status_code : Z) (detail : string)
  | KeyError (key : string)
  | TypeError
  | ValueError
  | OverflowError
  | AttributeError
  | OperationFailure
  | ExternalError (msg : string).

(** The result of evaluating a Python expression or call. *)
Inductive outcome (A : Type) : Type :=
  | Ret (a : A)
  | Raise (e : exn).
Arguments Ret {A} a.
Arguments Raise {A} e.

Definition obind {A B} (o : outcome A) (k : A -> outcome B) : outcome B :=
  match o with
  | Ret a => k a
  | Raise e => Raise e
  end.

(** [try: o  except Exception as e: h e] *)
Definition otry {A} (o : outcome A) (h : exn -> outcome A) : outcome A :=
  match o with
  | Ret a => Ret a
  | Raise e => h e
  end.

Declare Scope outcome_scope.
Delimit Scope outcome_scope with outcome.
Notation "x <- m ;; k" := (obind m (fun x => k))
  (at level 100, m at next level, right associativity) : outcome_scope.

(** [d[k]] *)
Definition getitem (d : document) (k : string) : outcome value :=
  match d !! k with
  | Some v => Ret v
  | None => Raise (KeyError k)
  end.

(** [d.get(k, dflt)] *)
Definition get (d : document) (k : string) (dflt : value) : value :=
  default dflt (d !! k).

(** ** Numbers *)

(** The integer [z] compared with the real number a binary64 value denotes:
    [None] when the float is a NaN. Python compares an [int] with a [float]
    exactly, without rounding the [int]. *)
Definition Z_SF_compare (z : Z) (f : spec_float) : option comparison :=
  match f with
  | S754_nan => None
  | S754_infinity s => Some (if s then Gt else Lt)
  | S754_zero _ => Some (z ?= 0)
  | S754_finite s m e =>
      let v := if s then Z.neg m else Z.pos m in
      if 0 <=? e then Some (z ?= v * 2 ^ e) else Some (z * 2 ^ (- e) ?= v)
  end.

Definition is_lt (c : option comparison) : bool :=
  match c with Some Lt => true | _ => false end.

Definition is_ge (c : option comparison) : bool :=
  match c with Some Gt | Some Eq => true | _ => false end.

(** [a < x] where [x] is a [float]. *)
Definition lt_float (a : value) (x : float) : outcome bool :=
  match a with
  | VInt z => Ret (is_lt (Z_SF_compare z (Prim2SF x)))
  | VFloat f => Ret (PrimFloat.ltb f x)
  | _ => Raise TypeError
  end.

(** [a >= x] where [x] is a [float]. *)
Definition ge_float (a : value) (x : float) : outcome bool :=
  match a with
  | VInt z => Ret (is_ge (Z_SF_compare z (Prim2SF x)))
  | VFloat f => Ret (PrimFloat.leb x f)
  | _ => Raise TypeError
  end.

(** [float(z)] for an [int]: the nearest binary64 value, ties to even;
    [OverflowError] when the integer is too large. *)
Definition float_of_int (z : Z) : outcome float :=
  let f := SF2Prim (binary_normalize prec emax z 0 false) in
  if PrimFloat.is_infinity f then Raise OverflowError else Ret f.

(** [int(f)] for a [float]: truncation toward zero. *)
Definition int_of_float (f : float) : outcome Z :=
  match Prim2SF f with
  | S754_nan => Raise ValueError
  | S754_infinity _ => Raise OverflowError
  | S754_zero _ => Ret 0
  | S754_finite s m e =>
      let a := if 0 <=? e then Z.pos m * 2 ^ e else Z.pos m / 2 ^ (- e) in
      Ret (if s then - a else a)
  end.

(** [a - x] where [x] is a [float]. *)
Definition sub_float (a : value) (x : float) : outcome value :=
  match a with
  | VInt z => obind (float_of_int z) (fun f => Ret (VFloat (PrimFloat.sub f x)))
  | VFloat f => Ret (VFloat (PrimFloat.sub f x))
  | _ => Raise TypeError
  end.

(** [s != v] where [s] is a [str]. *)
Definition str_ne (s : string) (v : value) : bool :=
  match v with
  | VStr s' => negb (String.eqb s s')
  | _ => true
  end.

End Py.
Export Py.


(* ===================================================================== *)
(** * The outside world of one request                                     *)
(* ===================================================================== *)

(** The body of [client.order.create(data=order_data)]: the [order_data]
    dictionary of [create_recharge_order], key by key ([notes] flattened). *)
Record order_data : Type := {
  od_amount : Z;
  od_currency : string;
  od_payment_capture : Z;
  od_notes_student_id : string;
  od_notes_vendor_id : string
}.

(** What a handler reads from outside the process while it serves one
    request: the answers of the payment gateway and of the SMS provider, the
    clock, the environment, the identifier the driver gives to an inserted
    document, and the text Python gives to values it prints. *)
Record World : Type := {
  (* razorpay *)
  order_create : order_data -> outcome document;
  verify_payment_signature : value -> value -> value -> outcome unit;
  (* os.getenv *)
  getenv : string -> value;
  (* datetime.datetime.now() and strftime("%d/%m/%Y, %H:%M:%S") *)
  now : Z;
  strftime : Z -> string;
  (* the ObjectId insert_one generates *)
  new_oid : string;
  (* twilio: Client(sid, token); client.verify.v2.services.create(...), which
     returns the service sid; services(sid).verifications.create(to, channel)
     and services(sid).verification_checks.create(to, code), which return
     the status *)
  twilio_Client : outcome unit;
  services_create : outcome string;
  verifications_create : string -> string -> outcome string;
  verification_checks_create : string -> string -> string -> outcome string;
  (* str() of a float, of a datetime and of an exception; pydantic's
     validation of a non-string value for a field declared Optional[str] *)
  float_repr : float -> string;
  datetime_str : Z -> string;
  exn_str : exn -> string;
  pydantic_str : value -> outcome string
}.

(** [str(v)], as an f-string renders [v]. *)
Definition py_str (w : World) (v : value) : string :=
  match v with
  | VNone => "None"
  | VInt z => pretty z
  | VFloat f => float_repr w f
  | VStr s => s
  | VDate t => datetime_str w t
  | VOid hex => hex
  end.

(* ===================================================================== *)
(** * The record store                                                     *)
(* ===================================================================== *)

Module Mongo.

Abbreviation collection := (list document).

(** Modelled from the spec: [database.py] is not among the sources; it
    provides the three collections the handlers import, which the
    specification describes as key-indexed document stores. *)
Record db : Type := {
  students_collection : collection;
  vendors_collection : collection;
  transactions_collection : collection
}.

(** Equality of a stored value and a query value: numbers compare by value
    across [int] and [double], NaN matches NaN. *)
Definition bson_eqb (v q : value) : bool :=
  match v, q with
  | VNone, VNone => true
  | VInt a, VInt b => a =? b
  | VInt a, VFloat b =>
      match Z_SF_compare a (Prim2SF b) with Some Eq => true | _ => false end
  | VFloat a, VInt b =>
      match Z_SF_compare b (Prim2SF a) with Some Eq => true | _ => false end
  | VFloat a, VFloat b =>
      PrimFloat.eqb a b || (PrimFloat.is_nan a && PrimFloat.is_nan b)
  | VStr a, VStr b => String.eqb a b
  | VDate a, VDate b => a =? b
  | VOid a, VOid b => String.eqb a b
  | _, _ => false
  end.

(** The filter [{k: q}]: the field equals [q]; a query for [None] also
    matches a document without the field. *)
Definition matches (k : string) (q : value) (d : document) : bool :=
  match d !! k with
  | Some v => bson_eqb v q
  | None => match q with VNone => true | _ => false end
  end.

(** [coll.find_one({k: q})]: the first match in insertion order. *)
Definition find_one (k : string) (q : value) (coll : collection)
  : option document :=
  List.find (matches k q) coll.

(** The first document that satisfies [p] is replaced by its image under
    [u]; nothing changes when no document matches or when [u] fails. *)
Fixpoint modify_first (p : document -> bool) (u : document -> outcome document)
    (coll : collection) : outcome (option document * collection) :=
  match coll with
  | [] => Ret (None, [])
  | d :: rest =>
      if p d then
        obind (u d) (fun d' => Ret (Some d', d' :: rest))
      else
        obind (modify_first p u rest) (fun '(r, rest') => Ret (r, d :: rest'))
  end.

(** The update [{"$set": fields}]. *)
Definition set_fields (fields : list (string * value)) (d : document)
  : document :=
  foldl (fun acc kv => <[kv.1 := kv.2]> acc) d fields.

Definition int64_min : Z := - 2 ^ 63.
Definition int64_max : Z := 2 ^ 63 - 1.

(** A 64-bit integer as a double (nearest, ties to even). *)
Definition double_of_long (z : Z) : float :=
  SF2Prim (binary_normalize prec emax z 0 false).

(** The sum [$inc] stores: integers stay integers unless the sum leaves
    64 bits (the update is then refused), an integer and a double give a
    double; anything else is refused. *)
Definition bson_add (a b : value) : outcome value :=
  match a, b with
  | VInt x, VInt y =>
      if (int64_min <=? x + y) && (x + y <=? int64_max)
      then Ret (VInt (x + y)) else Raise OperationFailure
  | VInt x, VFloat y => Ret (VFloat (PrimFloat.add (double_of_long x) y))
  | VFloat x, VInt y => Ret (VFloat (PrimFloat.add x (double_of_long y)))
  | VFloat x, VFloat y => Ret (VFloat (PrimFloat.add x y))
  | _, _ => Raise OperationFailure
  end.

Definition is_number (v : value) : bool :=
  match v with VInt _ | VFloat _ => true | _ => false end.

(** The value [{"$inc": {field: amt}}] leaves in the field: a missing field
    is set to [amt]. *)
Definition inc_value (old : option value) (amt : value) : outcome value :=
  match old with
  | Some v => bson_add v amt
  | None => if is_number amt then Ret amt else Raise OperationFailure
  end.

(** The update [{"$inc": {field: amt}}]. *)
Definition inc_field (field : string) (amt : value) (d : document)
  : outcome document :=
  obind (inc_value (d !! field) amt) (fun v' => Ret (<[field := v']> d)).

(** [coll.update_one({k: q}, {"$set": fields})] *)
Definition update_one_set (k : string) (q : value)
    (fields : list (string * value)) (coll : collection) : collection :=
  match modify_first (matches k q) (fun d => Ret (set_fields fields d)) coll with
  | Ret (_, coll') => coll'
  | Raise _ => coll
  end.

(** [coll.find_one_and_update({k: q}, {"$inc": {field: amt}},
    return_document=True)]: the document as it is after the update. *)
Definition find_one_and_update_inc (k : string) (q : value) (field : string)
    (amt : value) (coll : collection)
  : outcome (option document * collection) :=
  modify_first (matches k q) (inc_field field amt) coll.

(** [coll.insert_one(doc)]: the driver adds an [_id] to a document that has
    none; the result is the document as the caller's dictionary then is. *)
Definition insert_one (w : World) (doc : document) (coll : collection)
  : document * collection :=
  let doc' :=
    match doc !! "_id" with
    | Some _ => doc
    | None => <["_id" := VOid (new_oid w)]> doc
    end in
  (doc', (coll ++ [doc'])%list).

(** ** Sorting *)

(** The order of BSON types in a sort; a missing field sorts as null. *)
Definition type_rank (v : option value) : Z :=
  match v with
  | None | Some VNone => 1
  | Some (VInt _) | Some (VFloat _) => 2
  | Some (VStr _) => 3
  | Some (VOid _) => 7
  | Some (VDate _) => 9
  end.

Definition float_compare (a b : float) : comparison :=
  match SFcompare (Prim2SF a) (Prim2SF b) with
  | Some c => c
  | None =>
      match PrimFloat.is_nan a, PrimFloat.is_nan b with
      | true, true => Eq
      | true, false => Lt
      | _, _ => Gt
      end
  end.

Definition bson_compare (a b : option value) : comparison :=
  match type_rank a ?= type_rank b with
  | Eq =>
      match a, b with
      | Some (VInt x), Some (VInt y) => x ?= y
      | Some (VInt x), Some (VFloat y) =>
          default Gt (Z_SF_compare x (Prim2SF y))
      | Some (VFloat x), Some (VInt y) =>
          CompOpp (default Gt (Z_SF_compare y (Prim2SF x)))
      | Some (VFloat x), Some (VFloat y) => float_compare x y
      | Some (VStr x), Some (VStr y) => String.compare x y
      | Some (VOid x), Some (VOid y) => String.compare x y
      | Some (VDate x), Some (VDate y) => x ?= y
      | _, _ => Eq
      end
  | c => c
  end.

(** Insertion into a list sorted on [k], largest first; [d] goes in front of
    the documents whose key is not larger than its own. *)
Fixpoint insert_desc (k : string) (d : document) (sorted : collection)
  : collection :=
  match sorted with
  | [] => [d]
  | d' :: rest =>
      match bson_compare (d' !! k) (d !! k) with
      | Gt => d' :: insert_desc k d rest
      | _ => d :: sorted
      end
  end.

Definition sort_desc (k : string) (coll : collection) : collection :=
  foldr (insert_desc k) [] coll.

(** [list(coll.find({k: q}, sort=[(sort_key, -1)]))] *)
Definition find_sorted_desc (k : string) (q : value) (sort_key : string)
    (coll : collection) : collection :=
  sort_desc sort_key (List.filter (matches k q) coll).

(** [list(coll.find({k: q}))]: the matches in insertion order. *)
Definition find (k : string) (q : value) (coll : collection) : collection :=
  List.filter (matches k q) coll.

(** [coll.update_one({k: q}, {"$set": fields})] together with the
    [matched_count] of its result. *)
Definition update_one_set_matched (k : string) (q : value)
    (fields : list (string * value)) (coll : collection) : Z * collection :=
  match modify_first (matches k q) (fun d => Ret (set_fields fields d)) coll with
  | Ret (Some _, coll') => (1, coll')
  | Ret (None, coll') => (0, coll')
  | Raise _ => (0, coll)
  end.

End Mongo.
Export Mongo.

(* ===================================================================== *)
(** * utils/sms_utils.py                                                   *)
(* ===================================================================== *)

Module Sms.

Local Open Scope outcome_scope.

(** [send_payment_notification(phone_number, message)]: the whole body is
    inside [try], the handler returns [False]. The [message] is not passed
    to the provider. *)
Definition send_payment_notification (w : World)
    (phone_number message : string) : outcome bool :=
  otry
    (_ <- twilio_Client w ;;
     service_sid <- services_create w ;;
     _ <- verifications_create w service_sid phone_number ;;
     Ret true)
    (fun _ => Ret false).

(** [verify_otp(phone_number, otp_code, service_sid)] *)
Definition verify_otp (w : World) (phone_number otp_code service_sid : string)
  : outcome bool :=
  otry
    (_ <- twilio_Client w ;;
     status <- verification_checks_create w service_sid phone_number otp_code ;;
     Ret (String.eqb status "approved"))
    (fun _ => Ret false).

(** [format_recharge_message(amount, vendor_name, student_name)] *)
Definition format_recharge_message (w : World)
    (amount vendor_name student_name : value) : string :=
  "Payment Alert: ₹" +:+ py_str w amount +:+ " recharged to "
    +:+ py_str w vendor_name +:+ " for student " +:+ py_str w student_name
    +:+ ".".

(** [format_purchase_message(amount, vendor_name, student_name)] *)
Definition format_purchase_message (w : World)
    (amount vendor_name student_name : value) : string :=
  "Payment Alert: Your child " +:+ py_str w student_name
    +:+ " made a purchase of ₹" +:+ py_str w amount +:+ " at "
    +:+ py_str w vendor_name +:+ ".".

End Sms.
Export Sms.

(* ===================================================================== *)
(** * main.py                                                              *)
(* ===================================================================== *)

Module Api.

(** A handler runs against the record store and either returns or raises;
    what it wrote before raising stays written. *)
Definition M (A : Type) : Type := db -> outcome A * db.

Definition ret {A} (a : A) : M A := fun s => (Ret a, s).

Definition raise {A} (e : exn) : M A := fun s => (Raise e, s).

Definition bind {A B} (m : M A) (k : A -> M B) : M B :=
  fun s =>
    match m s with
    | (Ret a, s') => k a s'
    | (Raise e, s') => (Raise e, s')
    end.

Definition lift {A} (o : outcome A) : M A := fun s => (o, s).

(** [try: m  except Exception as e: h e] *)
Definition try_except {A} (m : M A) (h : exn -> M A) : M A :=
  fun s =>
    match m s with
    | (Ret a, s') => (Ret a, s')
    | (Raise e, s') => h e s'
    end.

Declare Scope api_scope.
Delimit Scope api_scope with api.
Notation "x <- m ;; k" := (bind m (fun x => k))
  (at level 100, m at next level, right associativity) : api_scope.
Notation "m ;; k" := (bind m (fun _ => k))
  (at level 100, right associativity) : api_scope.
Local Open Scope api_scope.

(** [if c: raise e] *)
Definition raise_if (c : bool) (e : exn) : M unit :=
  if c then raise e else ret tt.

(** ** The collections *)

Inductive coll_name : Type := students | vendors | transactions.

Definition get_coll (c : coll_name) (s : db) : collection :=
  match c with
  | students => students_collection s
  | vendors => vendors_collection s
  | transactions => transactions_collection s
  end.

Definition set_coll (c : coll_name) (l : collection) (s : db) : db :=
  match c with
  | students =>
      {| students_collection := l;
         vendors_collection := vendors_collection s;
         transactions_collection := transactions_collection s |}
  | vendors =>
      {| students_collection := students_collection s;
         vendors_collection := l;
         transactions_collection := transactions_collection s |}
  | transactions =>
      {| students_collection := students_collection s;
         vendors_collection := vendors_collection s;
         transactions_collection := l |}
  end.

Definition find_oneM (c : coll_name) (k : string) (q : value)
  : M (option document) :=
  fun s => (Ret (find_one k q (get_coll c s)), s).

Definition find_sortedM (c : coll_name) (k : string) (q : value)
    (sort_key : string) : M collection :=
  fun s => (Ret (find_sorted_desc k q sort_key (get_coll c s)), s).

Definition update_oneM (c : coll_name) (k : string) (q : value)
    (fields : list (string * value)) : M unit :=
  fun s => (Ret tt, set_coll c (update_one_set k q fields (get_coll c s)) s).

Definition find_one_and_updateM (c : coll_name) (k : string) (q : value)
    (field : string) (amt : value) : M (option document) :=
  fun s =>
    match find_one_and_update_inc k q field amt (get_coll c s) with
    | Ret (r, l) => (Ret r, set_coll c l s)
    | Raise e => (Raise e, s)
    end.

Definition insert_oneM (w : World) (c : coll_name) (doc : document)
  : M document :=
  fun s =>
    let '(doc', l) := insert_one w doc (get_coll c s) in
    (Ret doc', set_coll c l s).

(** [not d] for the result of [find_one]: [None] and the empty dictionary
    are false. *)
Definition py_not (o : option document) : bool :=
  match o with
  | None => true
  | Some d => bool_decide (size d = 0%nat)
  end.

(** [x = m] followed by [if not x: raise e]. *)
Definition or_raise (m : M (option document)) (e : exn) : M document :=
  o <- m ;;
  match o with
  | Some d => if py_not o then raise e else ret d
  | None => raise e
  end.

(** The two [except] clauses that close the [try] of a handler:
    [except HTTPException as he: raise he] and
    [except Exception as e: raise HTTPException(500, prefix + str(e))]. *)
Definition reraise_http {A} (w : World) (prefix : string) (body : M A) : M A :=
  try_except body
    (fun e =>
       match e with
       | HTTPException _ _ => raise e
       | _ => raise (HTTPException 500 (prefix +:+ exn_str w e))
       end).

(** ** Request bodies *)

(** Modelled from the spec: [models.WalletRechargeRequest] is imported from
    [models.py], which is not among the sources; the fields are the ones
    [create_recharge_order] reads, the amount a decimal number of major
    currency units like the amount of [StudentPaymentRequest]. *)
Record WalletRechargeRequest : Type := {
  rr_student_id : string;
  rr_vendor_id : string;
  rr_amount : float
}.

(** [class StudentPaymentRequest(BaseModel)] *)
Record StudentPaymentRequest : Type := {
  sp_student_id : string;
  sp_vendor_id : string;
  sp_amount : float;
  sp_description : string;
  sp_password : string
}.

(** [class Parent(BaseModel)] *)
Record Parent : Type := {
  phone : option string;
  name : option string
}.

(** A value given to a field declared [Optional[str]]. *)
Definition optional_str (w : World) (v : value) : outcome (option string) :=
  match v with
  | VNone => Ret None
  | VStr s => Ret (Some s)
  | _ => obind (pydantic_str w v) (fun s => Ret (Some s))
  end.

(** [get_parent_by_student_id(student_id)]; the callers pass a [str] or, in
    [verify_recharge_payment], whatever the JSON body holds. *)
Definition get_parent_by_student_id (w : World) (student_id : value)
  : M (option Parent) :=
  student <- find_oneM students "student_id" student_id ;;
  if py_not student then ret None else
  match student with
  | None => ret None
  | Some student =>
      match student !! "parent_phone" with
      | None => ret None
      | Some parent_phone =>
          p <- lift (optional_str w parent_phone) ;;
          n <- lift (optional_str w (get student "parent_name" (VStr "Parent"))) ;;
          ret (Some {| phone := p; name := n |})
      end
  end.

(** [parent and parent.phone], as a condition. *)
Definition has_phone (parent : option Parent) : option string :=
  match parent with
  | Some {| phone := Some ph |} => if String.eqb ph "" then None else Some ph
  | _ => None
  end.

(** A dictionary display [{k1: v1, ...}] with distinct keys. *)
Definition dict (items : list (string * value)) : document :=
  list_to_map items.

(** [if parent and parent.phone: message = fmt(amount, vendor["name"],
    student["name"]); send_payment_notification(parent.phone, message)] *)
Definition notify_parent (w : World) (parent : option Parent)
    (fmt : World -> value -> value -> value -> string)
    (amount : outcome value) (vendor student : document) : M unit :=
  match has_phone parent with
  | Some ph =>
      amount <- lift amount ;;
      vendor_name <- lift (getitem vendor "name") ;;
      student_name <- lift (getitem student "name") ;;
      let message := fmt w amount vendor_name student_name in
      lift (send_payment_notification w ph message) ;;
      ret tt
  | None => ret tt
  end.

(** [POST /create_recharge_order] *)
Definition create_recharge_order (w : World) (request : WalletRechargeRequest)
  : M document :=
  reraise_http w "Internal server error: " (
    student <- or_raise
      (find_oneM students "student_id" (VStr (rr_student_id request)))
      (HTTPException 404 "Student not found") ;;
    vendor <- or_raise
      (find_oneM vendors "vendor_id" (VStr (rr_vendor_id request)))
      (HTTPException 404 "Vendor not found") ;;
    order_amount <- lift (int_of_float (PrimFloat.mul (rr_amount request) 100)) ;;
    let order_currency := "INR" in
    let order_data :=
      {| od_amount := order_amount;
         od_currency := order_currency;
         od_payment_capture := 1;
         od_notes_student_id := rr_student_id request;
         od_notes_vendor_id := rr_vendor_id request |} in
    order <- try_except (lift (order_create w order_data))
      (fun e => raise (HTTPException 500
                  ("Failed to create payment order: " +:+ exn_str w e))) ;;
    let current_time := now w in
    let formatted_date := strftime w current_time in
    order_id <- lift (getitem order "id") ;;
    let order_doc := dict [
      ("order_id", order_id);
      ("student_id", VStr (rr_student_id request));
      ("vendor_id", VStr (rr_vendor_id request));
      ("amount", VFloat (rr_amount request));
      ("status", VStr "pending");
      ("type", VStr "recharge");
      ("created_at", VDate current_time);
      ("formatted_date", VStr formatted_date) ] in
    insert_oneM w transactions order_doc ;;
    parent <- get_parent_by_student_id w (VStr (rr_student_id request)) ;;
    notify_parent w parent format_recharge_message
      (Ret (VFloat (rr_amount request))) vendor student ;;
    order_id <- lift (getitem order "id") ;;
    ret (dict [
      ("id", order_id);
      ("amount", VInt order_amount);
      ("currency", VStr order_currency);
      ("key", getenv w "RAZORPAY_KEY_ID") ])).

(** [POST /verify_recharge_payment]; [payment] is the JSON body. *)
Definition verify_recharge_payment (w : World) (payment : document)
  : M document :=
  reraise_http w "" (
    try_except
      (lift (verify_payment_signature w
               (get payment "razorpay_payment_id" VNone)
               (get payment "razorpay_order_id" VNone)
               (get payment "razorpay_signature" VNone)))
      (fun e => raise (HTTPException 400
                  ("Payment verification failed: " +:+ exn_str w e))) ;;
    razorpay_order_id <- lift (getitem payment "razorpay_order_id") ;;
    order <- or_raise (find_oneM transactions "order_id" razorpay_order_id)
      (HTTPException 404 "Order not found") ;;
    student_id <- lift (getitem payment "student_id") ;;
    student <- or_raise (find_oneM students "student_id" student_id)
      (HTTPException 404 "Student not found") ;;
    vendor_id <- lift (getitem payment "vendor_id") ;;
    vendor <- or_raise (find_oneM vendors "vendor_id" vendor_id)
      (HTTPException 404 "Vendor not found") ;;
    amount <- lift (getitem order "amount") ;;
    student_update <-
      find_one_and_updateM students "student_id" student_id
        "wallet_balance" amount ;;
    amount <- lift (getitem order "amount") ;;
    vendor_update <-
      find_one_and_updateM vendors "vendor_id" vendor_id "balance" amount ;;
    let current_time := now w in
    let formatted_date := strftime w current_time in
    razorpay_payment_id <- lift (getitem payment "razorpay_payment_id") ;;
    update_oneM transactions "order_id" razorpay_order_id [
      ("status", VStr "completed");
      ("payment_id", razorpay_payment_id);
      ("completed_at", VDate current_time);
      ("formatted_date", VStr formatted_date) ] ;;
    try_except
      (student_id <- lift (getitem payment "student_id") ;;
       parent <- get_parent_by_student_id w student_id ;;
       notify_parent w parent format_recharge_message
         (getitem order "amount") vendor student)
      (fun _ => ret tt) ;;
    match student_update with
    | Some student_update =>
        ret (dict [
          ("status", VStr "success");
          ("message", VStr "Payment verified and processed successfully");
          ("new_balance", get student_update "wallet_balance" (VInt 0)) ])
    | None => raise AttributeError
    end).

(** [GET /student/{student_id}] *)
Definition get_student (w : World) (student_id : string) : M document :=
  student <- or_raise (find_oneM students "student_id" (VStr student_id))
    (HTTPException 404 "Student not found") ;;
  _id <- lift (getitem student "_id") ;;
  ret (<["_id" := VStr (py_str w _id)]> student).

(** [POST /process_student_payment] *)
Definition process_student_payment (w : World) (payment : StudentPaymentRequest)
  : M document :=
  reraise_http w "" (
    student <- or_raise
      (find_oneM students "student_id" (VStr (sp_student_id payment)))
      (HTTPException 404 "Student not found") ;;
    raise_if (str_ne (sp_password payment) (get student "password" VNone))
      (HTTPException 401 "Invalid student password") ;;
    balance <- lift (getitem student "balance") ;;
    low <- lift (lt_float balance (sp_amount payment)) ;;
    raise_if low (HTTPException 400 "Insufficient balance") ;;
    vendor <- or_raise
      (find_oneM vendors "vendor_id" (VStr (sp_vendor_id payment)))
      (HTTPException 404 "Vendor not found") ;;
    low <- lift (lt_float (get vendor "balance" (VInt 0)) (sp_amount payment)) ;;
    raise_if low (HTTPException 400 "Insufficient vendor balance") ;;
    balance <- lift (getitem student "balance") ;;
    new_student_balance <- lift (sub_float balance (sp_amount payment)) ;;
    new_vendor_balance <-
      lift (sub_float (get vendor "balance" (VInt 0)) (sp_amount payment)) ;;
    let current_time := now w in
    let formatted_date := strftime w current_time in
    update_oneM students "student_id" (VStr (sp_student_id payment))
      [("balance", new_student_balance)] ;;
    update_oneM vendors "vendor_id" (VStr (sp_vendor_id payment))
      [("balance", new_vendor_balance)] ;;
    let transaction := dict [
      ("student_id", VStr (sp_student_id payment));
      ("vendor_id", VStr (sp_vendor_id payment));
      ("amount", VFloat (sp_amount payment));
      ("type", VStr "purchase");
      ("description", VStr (sp_description payment));
      ("status", VStr "completed");
      ("timestamp", VDate current_time);
      ("formatted_date", VStr formatted_date);
      ("student_balance", new_student_balance);
      ("vendor_balance", new_vendor_balance) ] in
    transaction <- insert_oneM w transactions transaction ;;
    try_except
      (parent <- get_parent_by_student_id w (VStr (sp_student_id payment)) ;;
       notify_parent w parent format_purchase_message
         (Ret (VFloat (sp_amount payment))) vendor student)
      (fun _ => ret tt) ;;
    _id <- lift (getitem transaction "_id") ;;
    ret (dict [
      ("status", VStr "success");
      ("message", VStr "Payment processed successfully");
      ("student_balance", new_student_balance);
      ("vendor_balance", new_vendor_balance);
      ("transaction_date", VStr formatted_date);
      ("transaction_id", VStr (py_str w _id)) ])).

(** The dictionary [get_student_transactions] builds for one record. *)
Definition format_transaction (w : World) (transaction : document)
  : outcome document :=
  (_id <- getitem transaction "_id" ;;
   student_id <- getitem transaction "student_id" ;;
   amount <- getitem transaction "amount" ;;
   status <- getitem transaction "status" ;;
   Ret (dict [
     ("_id", VStr (py_str w _id));
     ("date", get transaction "formatted_date" (VStr "N/A"));
     ("student_id", student_id);
     ("amount", VStr ("₹" +:+ py_str w amount));
     ("description", get transaction "description" (VStr "Transaction"));
     ("status", status) ]))%outcome.

(** [for transaction in transactions: formatted_transactions.append(...)] *)
Fixpoint format_transactions (w : World) (transactions : collection)
  : outcome (list document) :=
  match transactions with
  | [] => Ret []
  | transaction :: rest =>
      (formatted_transaction <- format_transaction w transaction ;;
       formatted_transactions <- format_transactions w rest ;;
       Ret (formatted_transaction :: formatted_transactions))%outcome
  end.

(** [GET /student/transactions/{student_id}]: the list under the key
    ["transactions"] of the response. *)
Definition get_student_transactions (w : World) (student_id : string)
  : M (list document) :=
  student <- or_raise (find_oneM students "student_id" (VStr student_id))
    (HTTPException 404 "Student not found") ;;
  transactions <-
    find_sortedM transactions "student_id" (VStr student_id) "created_at" ;;
  lift (format_transactions w transactions).

(** ** The other handlers *)

Definition findM (c : coll_name) (k : string) (q : value) : M collection :=
  fun s => (Ret (find k q (get_coll c s)), s).

Definition update_one_matchedM (c : coll_name) (k : string) (q : value)
    (fields : list (string * value)) : M Z :=
  fun s =>
    let '(matched_count, l) :=
      update_one_set_matched k q fields (get_coll c s) in
    (Ret matched_count, set_coll c l s).

(** [class ParentUpdate(BaseModel)] *)
Record ParentUpdate : Type := {
  pu_student_id : string;
  pu_phone : string
}.

(** [class OTPVerification(BaseModel)] *)
Record OTPVerification : Type := {
  ov_phone_number : string;
  ov_otp_code : string;
  ov_service_sid : string
}.

(** [GET /vendor/{vendor_id}] *)
Definition get_vendor (vendor_id : string) : M document :=
  vendor <- or_raise (find_oneM vendors "vendor_id" (VStr vendor_id))
    (HTTPException 404 "Vendor not found") ;;
  vendor_id <- lift (getitem vendor "vendor_id") ;;
  vendor_name <- lift (getitem vendor "name") ;;
  upi_id <- lift (getitem vendor "upi_id") ;;
  ret (dict [
    ("vendor_id", vendor_id);
    ("name", vendor_name);
    ("upi_id", upi_id);
    ("balance", get vendor "balance" (VInt 0)) ]).

(** [for transaction in transactions:
       transaction["_id"] = str(transaction["_id"])] *)
Fixpoint stringify_ids (w : World) (transactions : collection)
  : outcome collection :=
  match transactions with
  | [] => Ret []
  | transaction :: rest =>
      (_id <- getitem transaction "_id" ;;
       rest <- stringify_ids w rest ;;
       Ret (<["_id" := VStr (py_str w _id)]> transaction :: rest))%outcome
  end.

(** [GET /vendor/transactions/{vendor_id}]: the values under the keys
    ["transactions"] and ["current_balance"] of the response. *)
Definition get_vendor_transactions (w : World) (vendor_id : string)
  : M (collection * value) :=
  vendor <- or_raise (find_oneM vendors "vendor_id" (VStr vendor_id))
    (HTTPException 404 "Vendor not found") ;;
  transactions <- findM transactions "vendor_id" (VStr vendor_id) ;;
  transactions <- lift (stringify_ids w transactions) ;;
  ret (transactions, get vendor "balance" (VInt 0)).

(** [POST /update_parent_phone]: the [HTTPException] raised inside the
    [try] is an [Exception] and reaches the only [except] clause. *)
Definition update_parent_phone (w : World) (parent_update : ParentUpdate)
  : M document :=
  try_except
    (matched_count <-
       update_one_matchedM students "student_id"
         (VStr (pu_student_id parent_update))
         [("parent_phone", VStr (pu_phone parent_update))] ;;
     raise_if (matched_count =? 0) (HTTPException 404 "Student not found") ;;
     ret (dict [("message", VStr "Parent phone number updated successfully")]))
    (fun e => raise (HTTPException 500 (exn_str w e))).

(** [POST /verify_otp]: the value under the key ["verified"] of the
    response. *)
Definition verify_payment_otp (w : World) (verification : OTPVerification)
  : M bool :=
  try_except
    (is_valid <- lift (verify_otp w
                         (ov_phone_number verification)
                         (ov_otp_code verification)
                         (ov_service_sid verification)) ;;
     ret is_valid)
    (fun e => raise (HTTPException 400 (exn_str w e))).

End Api.
Export Api.

(* ===================================================================== *)
(** * A campus with one student and one vendor                             *)
(* ===================================================================== *)

Module Scenario.

(** [repr] of a float whose value is a whole number of moderate size (the
    only floats the scenario prints), and a placeholder otherwise. *)
Definition repr_integral (f : float) : string :=
  match int_of_float f with
  | Ret z =>
      if PrimFloat.eqb (double_of_long z) f then pretty z +:+ ".0" else "<float>"
  | Raise _ => "<float>"
  end.

(** A world in which the gateway accepts every order and names it after the
    amount it was asked for, the signature ["valid"] verifies, and the SMS
    provider answers; [t] is the time on the clock and [oid] the identifier
    the next inserted document gets. *)
Definition world (t : Z) (oid : string) : World := {|
  order_create := fun od =>
    Ret (dict [("id", VStr ("order_" +:+ pretty (od_amount od)));
               ("amount", VInt (od_amount od));
               ("currency", VStr (od_currency od))]);
  verify_payment_signature := fun _ _ signature =>
    match signature with
    | VStr sig =>
        if String.eqb sig "valid" then Ret tt
        else Raise (ExternalError "Razorpay Signature Verification Failed")
    | _ => Raise (ExternalError "Razorpay Signature Verification Failed")
    end;
  getenv := fun _ => VStr "rzp_test_key";
  now := t;
  strftime := fun t => "day " +:+ pretty t;
  new_oid := oid;
  twilio_Client := Ret tt;
  services_create := Ret "VA01";
  verifications_create := fun _ _ => Ret "pending";
  verification_checks_create := fun _ _ code =>
    Ret (if String.eqb code "123456" then "approved" else "pending");
  float_repr := repr_integral;
  datetime_str := fun t => "day " +:+ pretty t;
  exn_str := fun _ => "error";
  pydantic_str := fun _ => Raise (ExternalError "ValidationError")
|}.

(** A world in which the gateway and the SMS provider are down. *)
Definition world_offline (t : Z) (oid : string) : World := {|
  order_create := fun _ => Raise (ExternalError "connection refused");
  verify_payment_signature := verify_payment_signature (world t oid);
  getenv := getenv (world t oid);
  now := t;
  strftime := strftime (world t oid);
  new_oid := oid;
  twilio_Client := Raise (ExternalError "connection refused");
  services_create := Raise (ExternalError "connection refused");
  verifications_create := fun _ _ => Raise (ExternalError "connection refused");
  verification_checks_create :=
    fun _ _ _ => Raise (ExternalError "connection refused");
  float_repr := repr_integral;
  datetime_str := datetime_str (world t oid);
  exn_str := exn_str (world t oid);
  pydantic_str := pydantic_str (world t oid)
|}.

Definition S1 : document := dict [
  ("_id", VOid "65f000000000000000000001");
  ("student_id", VStr "S1");
  ("name", VStr "Asha");
  ("balance", VInt 100);
  ("password", VStr "secret");
  ("parent_phone", VStr "+911234567890") ].

Definition V1 : document := dict [
  ("_id", VOid "65f000000000000000000002");
  ("vendor_id", VStr "V1");
  ("name", VStr "Canteen");
  ("upi_id", VStr "canteen@upi");
  ("balance", VInt 50) ].

Definition campus : db := {|
  students_collection := [S1];
  vendors_collection := [V1];
  transactions_collection := []
|}.

Definition purchase (amount : float) : StudentPaymentRequest := {|
  sp_student_id := "S1";
  sp_vendor_id := "V1";
  sp_amount := amount;
  sp_description := "lunch";
  sp_password := "secret"
|}.

Definition recharge (amount : float) : WalletRechargeRequest := {|
  rr_student_id := "S1";
  rr_vendor_id := "V1";
  rr_amount := amount
|}.

(** The body the client posts after paying the order [order_id]. *)
Definition verification (order_id : string) : document := dict [
  ("razorpay_payment_id", VStr "pay_1");
  ("razorpay_order_id", VStr order_id);
  ("razorpay_signature", VStr "valid");
  ("student_id", VStr "S1");
  ("vendor_id", VStr "V1") ].

(** 0.29 rupees: the binary64 value nearest to 0.29. *)
Definition rupees_0_29 : float := 0x1.28f5c28f5c28fp-2%float.

(** A student without balance and without parent. *)
Definition S2 : document := dict [
  ("_id", VOid "65f000000000000000000003");
  ("student_id", VStr "S2");
  ("name", VStr "Ravi");
  ("password", VStr "pw") ].

(** A vendor without name whose balance is not a number. *)
Definition V2 : document := dict [
  ("_id", VOid "65f000000000000000000004");
  ("vendor_id", VStr "V2");
  ("upi_id", VStr "stall@upi");
  ("balance", VStr "n/a") ].

(** A pending order of 5 rupees of [S1] for [V2]. *)
Definition order_v2 : document := dict [
  ("_id", VOid "65f000000000000000000005");
  ("order_id", VStr "order_500");
  ("student_id", VStr "S1");
  ("vendor_id", VStr "V2");
  ("amount", VFloat 5);
  ("status", VStr "pending");
  ("type", VStr "recharge");
  ("created_at", VDate 0);
  ("formatted_date", VStr "day 0") ].

Definition campus2 : db := {|
  students_collection := [S1; S2];
  vendors_collection := [V1; V2];
  transactions_collection := [order_v2]
|}.

(** The campus after a recharge order of 200 at time 1, and after a
    purchase of 30 at time 2 on top of it. *)
Definition campus_ordered : db :=
  (create_recharge_order (world 1 "t1") (recharge 200) campus).2.

Definition campus_traded : db :=
  (process_student_payment (world 2 "t2") (purchase 30) campus_ordered).2.

Definition purchase_by (student_id vendor_id password : string)
    (amount : float) : StudentPaymentRequest := {|
  sp_student_id := student_id;
  sp_vendor_id := vendor_id;
  sp_amount := amount;
  sp_description := "lunch";
  sp_password := password
|}.

Definition recharge_by (student_id vendor_id : string) (amount : float)
  : WalletRechargeRequest := {|
  rr_student_id := student_id;
  rr_vendor_id := vendor_id;
  rr_amount := amount
|}.

Definition verification_by (order_id signature student_id vendor_id : string)
  : document := dict [
  ("razorpay_payment_id", VStr "pay_1");
  ("razorpay_order_id", VStr order_id);
  ("razorpay_signature", VStr signature);
  ("student_id", VStr student_id);
  ("vendor_id", VStr vendor_id) ].

End Scenario.

(* ===================================================================== *)
(** * What a handler may change                                            *)
(* ===================================================================== *)

(** [frame R m]: whatever [m] returns or raises, the store it leaves is
    related by [R] to the store it started from. *)
Definition frame (R : db -> db -> Prop) {A} (m : M A) : Prop :=
  forall s, R s (m s).2.

(** The students and the vendors are the same documents as before. *)
Definition same_accounts (s s' : db) : Prop :=
  students_collection s' = students_collection s /\
  vendors_collection s' = vendors_collection s.

(** The world [w] with another SMS provider. *)
Definition with_sms (w : World) (client : outcome unit)
    (service : outcome string)
    (verification : string -> string -> outcome string)
    (check : string -> string -> string -> outcome string) : World := {|
  order_create := order_create w;
  verify_payment_signature := verify_payment_signature w;
  getenv := getenv w;
  now := now w;
  strftime := strftime w;
  new_oid := new_oid w;
  twilio_Client := client;
  services_create := service;
  verifications_create := verification;
  verification_checks_create := check;
  float_repr := float_repr w;
  datetime_str := datetime_str w;
  exn_str := exn_str w;
  pydantic_str := pydantic_str w
|}.

(** No account is created or deleted and the log does not shrink. *)
Definition accounts_kept (s s' : db) : Prop :=
  length (students_collection s') = length (students_collection s) /\
  length (vendors_collection s') = length (vendors_collection s) /\
  (length (transactions_collection s) <= length (transactions_collection s'))%nat.

(** [a] may stand before [b] in a list sorted on [k], largest first. *)
Definition not_before (k : string) (a b : document) : Prop :=
  bson_compare (a !! k) (b !! k) = Gt \/ bson_compare (b !! k) (a !! k) <> Gt.

(** The time in [created_at], when the field holds one. *)
Definition created (d : document) : option Z :=
  match d !! "created_at" with
  | Some (VDate t) => Some t
  | _ => None
  end.

(** [created_at] is missing or holds a datetime. *)
Definition dated_or_missing (d : document) : bool :=
  match d !! "created_at" with
  | None | Some (VDate _) => true
  | _ => false
  end.

(** [a] was created no earlier than [b], a record without creation time
    counting as the oldest. *)
Definition newest_first (a b : document) : Prop :=
  match created a, created b with
  | Some ta, Some tb => tb <= ta
  | Some _, None => True
  | None, Some _ => False
  | None, None => True
  end.

(** The fields [verify_recharge_payment] sets on the order. *)
Definition completed (w : World) (payment_id : value) (order : document)
  : document :=
  set_fields [ ("status", VStr "completed");
               ("payment_id", payment_id);
               ("completed_at", VDate (now w));
               ("formatted_date", VStr (strftime w (now w))) ] order.

(** The request carries its four identifiers, its signature verifies, and
    the order, the student and the vendor it names are stored; [amount] is
    the amount recorded in the order. *)
Definition verification_accepted (w : World) (payment : document) (s : db)
    (payment_id order_id student_id vendor_id : value)
    (order student vendor : document) (amount : value) : Prop :=
  payment !! "razorpay_payment_id" = Some payment_id /\
  payment !! "razorpay_order_id" = Some order_id /\
  payment !! "student_id" = Some student_id /\
  payment !! "vendor_id" = Some vendor_id /\
  verify_payment_signature w payment_id order_id
    (get payment "razorpay_signature" VNone) = Ret tt /\
  find_one "order_id" order_id (transactions_collection s) = Some order /\
  find_one "student_id" student_id (students_collection s) = Some student /\
  find_one "vendor_id" vendor_id (vendors_collection s) = Some vendor /\
  py_not (Some student) = false /\
  py_not (Some vendor) = false /\
  order !! "amount" = Some amount.

(** The document [create_recharge_order] stores for an order. *)
Definition pending_order (w : World) (request : WalletRechargeRequest)
    (order_id : value) : document :=
  <["_id" := VOid (new_oid w)]> (dict [
    ("order_id", order_id);
    ("student_id", VStr (rr_student_id request));
    ("vendor_id", VStr (rr_vendor_id request));
    ("amount", VFloat (rr_amount request));
    ("status", VStr "pending");
    ("type", VStr "recharge");
    ("created_at", VDate (now w));
    ("formatted_date", VStr (strftime w (now w))) ]).

(** A field that [Parent] accepts as it is: missing, [None] or a [str]. *)
Definition str_or_none (o : option value) : bool :=
  match o with
  | None | Some VNone | Some (VStr _) => true
  | _ => false
  end.

(** The document carries an [_id]. *)
Definition has_id (d : document) : bool :=
  match d !! "_id" with Some _ => true | None => false end.

(* ===================================================================== *)
(** * Lemmas                                                               *)
(* ===================================================================== *)

(** ** Comparisons *)

Lemma SFcompare_antisym x y c :
  SFcompare x y = Some c -> SFcompare y x = Some (CompOpp c).
Proof.
  destruct x as [sx|sx| |sx mx ex], y as [sy|sy| |sy my ey]; simpl;
    intros H; try discriminate; inversion H; subst; clear H;
    try (destruct sx; reflexivity); try (destruct sy; reflexivity);
    try (destruct sx, sy; reflexivity).
  destruct sx, sy; try reflexivity;
    rewrite (Z.compare_antisym ey ex); destruct (ey ?= ex)%Z; simpl;
    try reflexivity;
    pose proof (Pos.compare_cont_antisym my mx Eq) as HH; simpl in HH;
    rewrite <- HH; destruct (Pos.compare_cont Eq my mx); reflexivity.
Qed.

Lemma float_leb_not_ltb (x f : float) :
  PrimFloat.leb x f = true -> PrimFloat.ltb f x = false.
Proof.
  rewrite FloatAxioms.leb_spec, FloatAxioms.ltb_spec. unfold SFleb, SFltb.
  destruct (SFcompare (Prim2SF x) (Prim2SF f)) as [c|] eqn:E; [|discriminate].
  rewrite (SFcompare_antisym _ _ _ E). destruct c; simpl; congruence.
Qed.

(** [a >= x] excludes [a < x]. *)
Lemma ge_float_not_lt (a : value) (x : float) :
  ge_float a x = Ret true -> lt_float a x = Ret false.
Proof.
  destruct a; simpl; try discriminate; intros H; f_equal;
    inversion H as [H']; clear H.
  - destruct (Z_SF_compare z (Prim2SF x)) as [[]|]; simpl in *; congruence.
  - now apply float_leb_not_ltb.
Qed.

Lemma str_ne_same s : str_ne s (VStr s) = false.
Proof. simpl. rewrite String.eqb_refl. reflexivity. Qed.

(** ** The store *)

Lemma py_not_lookup (d : document) k v :
  d !! k = Some v -> py_not (Some d) = false.
Proof.
  intros H. unfold py_not. apply bool_decide_eq_false. intros Hs.
  apply map_size_empty_inv in Hs. subst. rewrite lookup_empty in H.
  discriminate.
Qed.

Lemma matches_lookup k q (d : document) :
  q <> VNone -> matches k q d = true -> is_Some (d !! k).
Proof.
  unfold matches. destruct (d !! k); eauto. destruct q; congruence.
Qed.

Lemma find_one_matches k q l d :
  find_one k q l = Some d -> matches k q d = true.
Proof. intros H. apply find_some in H. tauto. Qed.

Lemma matches_insert_ne k k' q v (d : document) :
  k <> k' -> matches k q (<[k' := v]> d) = matches k q d.
Proof. intros. unfold matches. rewrite lookup_insert_ne; auto. Qed.

Lemma modify_first_none p u l :
  List.find p l = None -> modify_first p u l = Ret (None, l).
Proof.
  induction l as [|x l IH]; simpl; [reflexivity|].
  destruct (p x); [discriminate|]. intros H. rewrite (IH H). reflexivity.
Qed.

(** The document [find] returns is the one [modify_first] rewrites, and the
    rewritten document is found in its place as long as it still matches. *)
Lemma modify_first_spec p u l d d' :
  List.find p l = Some d -> u d = Ret d' ->
  exists l', modify_first p u l = Ret (Some d', l') /\
     length l' = length l /\
     (p d' = true -> List.find p l' = Some d').
Proof.
  revert d d'. induction l as [|x l IH]; simpl; intros d d'; [discriminate|].
  destruct (p x) eqn:E.
  - intros [= ->] Hu. rewrite Hu. simpl. eexists; split; [reflexivity|].
    split; [reflexivity|]. simpl. intros ->. reflexivity.
  - intros Hf Hu. destruct (IH _ _ Hf Hu) as (l' & Hm & Hl & Hp).
    rewrite Hm. simpl. eexists; split; [reflexivity|].
    split; [simpl; congruence|]. simpl. rewrite E. auto.
Qed.

Lemma update_one_set_spec k q fields l d :
  find_one k q l = Some d ->
  matches k q (set_fields fields d) = true ->
  find_one k q (update_one_set k q fields l) = Some (set_fields fields d).
Proof.
  intros Hf Hm. unfold update_one_set.
  destruct (modify_first_spec (matches k q)
              (fun d => Ret (set_fields fields d)) l d _ Hf eq_refl)
    as (l' & Hl' & _ & Hp).
  rewrite Hl'. auto.
Qed.

Lemma find_one_and_update_inc_spec k q field amt l d v' :
  find_one k q l = Some d ->
  inc_value (d !! field) amt = Ret v' ->
  k <> field ->
  exists l',
    find_one_and_update_inc k q field amt l
      = Ret (Some (<[field := v']> d), l') /\
    find_one k q l' = Some (<[field := v']> d).
Proof.
  intros Hf Hi Hne. unfold find_one_and_update_inc.
  destruct (modify_first_spec (matches k q) (inc_field field amt) l d
              (<[field := v']> d) Hf) as (l' & Hl' & _ & Hp).
  { unfold inc_field. rewrite Hi. reflexivity. }
  exists l'. split; [assumption|]. apply Hp.
  rewrite matches_insert_ne by assumption. eapply find_one_matches, Hf.
Qed.

(** ** The monad *)

Lemma bind_ret_eq {A B} (m : M A) (k : A -> M B) s a s' :
  m s = (Ret a, s') -> bind m k s = k a s'.
Proof. intros H. unfold bind. rewrite H. reflexivity. Qed.

(** One step of a handler whose result is known. *)
Ltac step_by tac := erewrite bind_ret_eq; [|tac].
Ltac step := step_by ltac:(reflexivity).

Lemma bind_raise_eq {A B} (m : M A) (k : A -> M B) s e s' :
  m s = (Raise e, s') -> bind m k s = (Raise e, s').
Proof. intros H. unfold bind. rewrite H. reflexivity. Qed.

Lemma bind_ret_inv {A B} (m : M A) (k : A -> M B) s b s' :
  bind m k s = (Ret b, s') ->
  exists a s1, m s = (Ret a, s1) /\ k a s1 = (Ret b, s').
Proof.
  unfold bind. destruct (m s) as [[a|e] s1]; [eauto|discriminate].
Qed.

Lemma reraise_http_ret_inv {A} w prefix (m : M A) s a s' :
  reraise_http w prefix m s = (Ret a, s') -> m s = (Ret a, s').
Proof.
  unfold reraise_http, try_except.
  destruct (m s) as [[a'|e] s1]; [auto|destruct e; discriminate].
Qed.

Lemma or_raise_found c k q e s d :
  find_one k q (get_coll c s) = Some d -> py_not (Some d) = false ->
  or_raise (find_oneM c k q) e s = (Ret d, s).
Proof.
  intros Hf Hn. unfold or_raise, bind, find_oneM. rewrite Hf, Hn. reflexivity.
Qed.

Lemma or_raise_missing c k q e s :
  find_one k q (get_coll c s) = None ->
  or_raise (find_oneM c k q) e s = (Raise e, s).
Proof. intros Hf. unfold or_raise, bind, find_oneM. rewrite Hf. reflexivity. Qed.

Lemma insert_oneM_fresh w c (doc : document) s :
  doc !! "_id" = None ->
  insert_oneM w c doc s =
    (Ret (<["_id" := VOid (new_oid w)]> doc),
     set_coll c (get_coll c s ++ [<["_id" := VOid (new_oid w)]> doc])%list s).
Proof. intros H. unfold insert_oneM, insert_one. rewrite H. reflexivity. Qed.

Lemma find_one_and_updateM_found c k q field amt s d v' :
  find_one k q (get_coll c s) = Some d ->
  inc_value (d !! field) amt = Ret v' ->
  k <> field ->
  exists l',
    find_one_and_updateM c k q field amt s
      = (Ret (Some (<[field := v']> d)), set_coll c l' s) /\
    find_one k q l' = Some (<[field := v']> d).
Proof.
  intros Hf Hi Hne.
  destruct (find_one_and_update_inc_spec k q field amt _ d v' Hf Hi Hne)
    as (l' & Hl' & Hfind).
  exists l'. split; [|assumption].
  unfold find_one_and_updateM. rewrite Hl'. reflexivity.
Qed.

(** ** Frames *)

Section Frame.
Context (R : db -> db -> Prop) `{!PreOrder R}.

Lemma frame_ret {A} (a : A) : frame R (ret a).
Proof. intros s. reflexivity. Qed.

Lemma frame_raise {A} e : frame R (@raise A e).
Proof. intros s. reflexivity. Qed.

Lemma frame_lift {A} (o : outcome A) : frame R (lift o).
Proof. intros s. reflexivity. Qed.

Lemma frame_bind {A B} (m : M A) (k : A -> M B) :
  frame R m -> (forall a, frame R (k a)) -> frame R (bind m k).
Proof.
  intros Hm Hk s. unfold bind. specialize (Hm s).
  destruct (m s) as [[a|e] s']; simpl in *; [|assumption].
  etrans; [exact Hm|apply Hk].
Qed.

Lemma frame_try_except {A} (m : M A) h :
  frame R m -> (forall e, frame R (h e)) -> frame R (try_except m h).
Proof.
  intros Hm Hk s. unfold try_except. specialize (Hm s).
  destruct (m s) as [[a|e] s']; simpl in *; [assumption|].
  etrans; [exact Hm|apply Hk].
Qed.

Lemma frame_find_oneM c k q : frame R (find_oneM c k q).
Proof. intros s. reflexivity. Qed.

Lemma frame_find_sortedM c k q sk : frame R (find_sortedM c k q sk).
Proof. intros s. reflexivity. Qed.

Lemma frame_raise_if c e : frame R (raise_if c e).
Proof. destruct c; [apply frame_raise|apply frame_ret]. Qed.

Lemma frame_or_raise m e : frame R m -> frame R (or_raise m e).
Proof.
  intros Hm. unfold or_raise. apply frame_bind; [assumption|].
  intros [d|]; [|apply frame_raise].
  destruct (py_not (Some d)); [apply frame_raise|apply frame_ret].
Qed.

Lemma frame_reraise_http {A} w prefix (m : M A) :
  frame R m -> frame R (reraise_http w prefix m).
Proof.
  intros Hm. unfold reraise_http. apply frame_try_except; [assumption|].
  intros []; apply frame_raise.
Qed.

Lemma frame_get_parent w sid : frame R (get_parent_by_student_id w sid).
Proof.
  unfold get_parent_by_student_id. apply frame_bind; [apply frame_find_oneM|].
  intros o. destruct (py_not o); [apply frame_ret|].
  destruct o as [d|]; [|apply frame_ret].
  destruct (d !! "parent_phone"); [|apply frame_ret].
  repeat (apply frame_bind; [apply frame_lift|intros ?]). apply frame_ret.
Qed.

Lemma frame_notify_parent w parent fmt amount vendor student :
  frame R (notify_parent w parent fmt amount vendor student).
Proof.
  unfold notify_parent. destruct (has_phone parent); [|apply frame_ret].
  repeat (apply frame_bind; [apply frame_lift|intros ?]). apply frame_ret.
Qed.
End Frame.

#[local] Instance same_accounts_preorder : PreOrder same_accounts.
Proof.
  split.
  - intros s. split; reflexivity.
  - intros s1 s2 s3 [H1 H2] [H3 H4]. split; congruence.
Qed.

Lemma frame_insert_transaction w doc :
  frame same_accounts (insert_oneM w transactions doc).
Proof.
  intros s. unfold insert_oneM.
  destruct (insert_one w doc (get_coll transactions s)). split; reflexivity.
Qed.

(** Frames of straight-line handler code, clause by clause. *)
Ltac frame_tac :=
  repeat (cbv zeta; first
    [ apply frame_ret | apply frame_raise | apply frame_lift
    | apply frame_find_oneM | apply frame_find_sortedM | apply frame_raise_if
    | apply frame_get_parent | apply frame_notify_parent
    | apply frame_insert_transaction
    | apply frame_or_raise | apply frame_reraise_http
    | apply frame_try_except | apply frame_bind
    | intros ? | apply _ ]).

(** A notification that fails is swallowed and has written nothing. *)
Lemma swallow_readonly (m : M unit) s :
  frame eq m -> try_except m (fun _ => ret tt) s = (Ret tt, s).
Proof.
  intros H. specialize (H s). unfold try_except.
  destruct (m s) as [[[]|e] s']; simpl in *; subst; reflexivity.
Qed.

Lemma notification_swallowed w sid fmt amount vendor student s :
  try_except
    (bind (get_parent_by_student_id w sid)
       (fun parent => notify_parent w parent fmt amount vendor student))
    (fun _ => ret tt) s = (Ret tt, s).
Proof.
  apply swallow_readonly. frame_tac.
Qed.

Import Scenario.

(** ** Arithmetic on the values of the scenario *)

Example sub_float_int : sub_float (VInt 100) 30 = Ret (VFloat 70).
Proof. vm_compute. reflexivity. Qed.

Example lt_float_int : lt_float (VInt 50) 60 = Ret true.
Proof. vm_compute. reflexivity. Qed.

Example lt_float_str : lt_float (VStr "50") 60 = Raise TypeError.
Proof. reflexivity. Qed.

Example int_of_float_0_29 : int_of_float (PrimFloat.mul rupees_0_29 100) = Ret 28.
Proof. vm_compute. reflexivity. Qed.

Example int_of_float_200 : int_of_float (PrimFloat.mul 200 100) = Ret 20000.
Proof. vm_compute. reflexivity. Qed.

Example inc_value_missing : inc_value None (VFloat 200) = Ret (VFloat 200).
Proof. reflexivity. Qed.

Example inc_value_int_double :
  inc_value (Some (VInt 50)) (VFloat 200) = Ret (VFloat 250).
Proof. vm_compute. reflexivity. Qed.

(* ===================================================================== *)
(** * Purchases                                                            *)
(* ===================================================================== *)

(** C1. A purchase of amount [A] by an existing student from an existing
    vendor, with the right password, a student balance [>= A] and a vendor
    balance (0 when the field is missing) [>= A], succeeds; the student's
    stored balance becomes the old balance minus [A], the vendor's stored
    balance becomes the old vendor balance minus [A], and the one
    transaction appended has type "purchase", status "completed" and carries
    exactly these two new balances in [student_balance] and
    [vendor_balance]. *)
Theorem process_student_payment_success (w : World)
    (payment : StudentPaymentRequest) (s : db)
    (student vendor : document) (old_student_balance : value)
    (new_student_balance new_vendor_balance : value) :
  let A := sp_amount payment in
  let old_vendor_balance := get vendor "balance" (VInt 0) in
  find_one "student_id" (VStr (sp_student_id payment)) (students_collection s)
    = Some student ->
  find_one "vendor_id" (VStr (sp_vendor_id payment)) (vendors_collection s)
    = Some vendor ->
  student !! "password" = Some (VStr (sp_password payment)) ->
  student !! "balance" = Some old_student_balance ->
  ge_float old_student_balance A = Ret true ->
  ge_float old_vendor_balance A = Ret true ->
  sub_float old_student_balance A = Ret new_student_balance ->
  sub_float old_vendor_balance A = Ret new_vendor_balance ->
  exists response s' transaction,
    process_student_payment w payment s = (Ret response, s') /\
    find_one "student_id" (VStr (sp_student_id payment))
        (students_collection s')
      = Some (<["balance" := new_student_balance]> student) /\
    find_one "vendor_id" (VStr (sp_vendor_id payment)) (vendors_collection s')
      = Some (<["balance" := new_vendor_balance]> vendor) /\
    transactions_collection s'
      = (transactions_collection s ++ [transaction])%list /\
    transaction !! "type" = Some (VStr "purchase") /\
    transaction !! "status" = Some (VStr "completed") /\
    transaction !! "student_balance" = Some new_student_balance /\
    transaction !! "vendor_balance" = Some new_vendor_balance.
Proof.
  intros A old_vendor_balance Hs Hv Hpw Hb Hge Hvge Hsub Hvsub.
  subst A old_vendor_balance.
  pose proof (find_one_matches _ _ _ _ Hs) as Hms.
  pose proof (find_one_matches _ _ _ _ Hv) as Hmv.
  destruct (matches_lookup "vendor_id" (VStr (sp_vendor_id payment)) vendor
              ltac:(discriminate) Hmv) as [vid Hvid].
  pose proof (update_one_set_spec "student_id" (VStr (sp_student_id payment))
                [("balance", new_student_balance)] _ _ Hs) as Hfs.
  pose proof (update_one_set_spec "vendor_id" (VStr (sp_vendor_id payment))
                [("balance", new_vendor_balance)] _ _ Hv) as Hfv.
  simpl in Hfs, Hfv.
  rewrite matches_insert_ne in Hfs by discriminate.
  rewrite matches_insert_ne in Hfv by discriminate.
  specialize (Hfs Hms). specialize (Hfv Hmv).
  unfold process_student_payment, reraise_http.
  unfold try_except at 1.
  step_by ltac:(apply or_raise_found;
                [exact Hs|eapply py_not_lookup; exact Hb]).
  unfold get at 1. rewrite Hpw. simpl default. rewrite str_ne_same. step.
  unfold getitem. rewrite Hb. step.
  rewrite (ge_float_not_lt _ _ Hge). do 2 step.
  step_by ltac:(apply or_raise_found;
                [exact Hv|eapply py_not_lookup; exact Hvid]).
  rewrite (ge_float_not_lt _ _ Hvge). do 3 step.
  rewrite Hsub, Hvsub. do 4 step.
  step_by ltac:(apply insert_oneM_fresh; reflexivity).
  step_by ltac:(apply notification_swallowed).
  rewrite lookup_insert_eq.
  do 2 eexists. eexists (<["_id" := _]> _).
  split; [reflexivity|]. simpl.
  repeat split; try assumption; reflexivity.
Qed.

(** The scenario of the specification: balance 100, vendor balance 50, a
    purchase of 30. *)
Lemma process_student_payment_success_witness :
  exists response s' transaction,
    process_student_payment (world 3 "t3") (purchase 30) campus
      = (Ret response, s') /\
    find_one "student_id" (VStr "S1") (students_collection s')
      = Some (<["balance" := VFloat 70]> S1) /\
    find_one "vendor_id" (VStr "V1") (vendors_collection s')
      = Some (<["balance" := VFloat 20]> V1) /\
    transactions_collection s' = ([] ++ [transaction])%list /\
    transaction !! "type" = Some (VStr "purchase") /\
    transaction !! "status" = Some (VStr "completed") /\
    transaction !! "student_balance" = Some (VFloat 70) /\
    transaction !! "vendor_balance" = Some (VFloat 20).
Proof.
  apply (process_student_payment_success (world 3 "t3") (purchase 30) campus
           S1 V1 (VInt 100) (VFloat 70) (VFloat 20));
    vm_compute; reflexivity.
Defined.

(** C4. When the amount exceeds the balance of an existing student who gave
    the right password, the purchase is refused with status 400 and detail
    "Insufficient balance", whatever the vendors collection holds, and the
    store is left as it was. *)
Theorem process_student_payment_insufficient_balance (w : World)
    (payment : StudentPaymentRequest) (s : db) (student : document)
    (balance : value) :
  find_one "student_id" (VStr (sp_student_id payment)) (students_collection s)
    = Some student ->
  student !! "password" = Some (VStr (sp_password payment)) ->
  student !! "balance" = Some balance ->
  lt_float balance (sp_amount payment) = Ret true ->
  process_student_payment w payment s
    = (Raise (HTTPException 400 "Insufficient balance"), s).
Proof.
  intros Hs Hpw Hb Hlt.
  unfold process_student_payment, reraise_http.
  unfold try_except at 1.
  step_by ltac:(apply or_raise_found;
                [exact Hs|eapply py_not_lookup; exact Hb]).
  unfold get at 1. rewrite Hpw. simpl default. rewrite str_ne_same. step.
  unfold getitem. rewrite Hb. step. rewrite Hlt. step.
  reflexivity.
Qed.

Lemma process_student_payment_insufficient_balance_witness :
  process_student_payment (world 3 "t3") (purchase 130) campus
    = (Raise (HTTPException 400 "Insufficient balance"), campus).
Proof.
  apply (process_student_payment_insufficient_balance (world 3 "t3")
           (purchase 130) campus S1 (VInt 100));
    vm_compute; reflexivity.
Defined.

(** C5. When the student exists, the password is right and the student's
    balance covers the amount, but the balance of the existing vendor (0
    when the field is missing) is below the amount, the purchase is refused
    with status 400 and detail "Insufficient vendor balance"; no document
    is changed and no transaction is appended. *)
Theorem process_student_payment_insufficient_vendor_balance (w : World)
    (payment : StudentPaymentRequest) (s : db) (student vendor : document)
    (balance : value) :
  find_one "student_id" (VStr (sp_student_id payment)) (students_collection s)
    = Some student ->
  student !! "password" = Some (VStr (sp_password payment)) ->
  student !! "balance" = Some balance ->
  ge_float balance (sp_amount payment) = Ret true ->
  find_one "vendor_id" (VStr (sp_vendor_id payment)) (vendors_collection s)
    = Some vendor ->
  lt_float (get vendor "balance" (VInt 0)) (sp_amount payment) = Ret true ->
  process_student_payment w payment s
    = (Raise (HTTPException 400 "Insufficient vendor balance"), s).
Proof.
  intros Hs Hpw Hb Hge Hv Hlt.
  pose proof (find_one_matches _ _ _ _ Hv) as Hmv.
  destruct (matches_lookup "vendor_id" (VStr (sp_vendor_id payment)) vendor
              ltac:(discriminate) Hmv) as [vid Hvid].
  unfold process_student_payment, reraise_http.
  unfold try_except at 1.
  step_by ltac:(apply or_raise_found;
                [exact Hs|eapply py_not_lookup; exact Hb]).
  unfold get at 1. rewrite Hpw. simpl default. rewrite str_ne_same. step.
  unfold getitem. rewrite Hb. step.
  rewrite (ge_float_not_lt _ _ Hge). do 2 step.
  step_by ltac:(apply or_raise_found;
                [exact Hv|eapply py_not_lookup; exact Hvid]).
  rewrite Hlt. step.
  reflexivity.
Qed.

(** The scenario of the specification: a purchase of 60 against a vendor
    balance of 50. *)
Lemma process_student_payment_insufficient_vendor_balance_witness :
  process_student_payment (world 3 "t3") (purchase 60) campus
    = (Raise (HTTPException 400 "Insufficient vendor balance"), campus).
Proof.
  apply (process_student_payment_insufficient_vendor_balance (world 3 "t3")
           (purchase 60) campus S1 V1 (VInt 100));
    vm_compute; reflexivity.
Defined.

(* ===================================================================== *)
(** * Recharges                                                            *)
(* ===================================================================== *)

(** C2. When the signature of a verification request is valid, its order id
    is that of a stored transaction and its student and vendor exist, the
    student's [wallet_balance] and the vendor's [balance] are each
    incremented by the amount recorded in that stored transaction (the
    request is arbitrary otherwise, so nothing it may carry as an amount is
    used), and [new_balance] in the response is the student's
    [wallet_balance] after the increment. *)
Theorem verify_recharge_payment_increments (w : World) (payment : document)
    (s : db) (order student vendor : document)
    (payment_id order_id student_id vendor_id : value)
    (amount new_wallet_balance new_vendor_balance : value) :
  payment !! "razorpay_payment_id" = Some payment_id ->
  payment !! "razorpay_order_id" = Some order_id ->
  payment !! "student_id" = Some student_id ->
  payment !! "vendor_id" = Some vendor_id ->
  verify_payment_signature w payment_id order_id
    (get payment "razorpay_signature" VNone) = Ret tt ->
  find_one "order_id" order_id (transactions_collection s) = Some order ->
  find_one "student_id" student_id (students_collection s) = Some student ->
  find_one "vendor_id" vendor_id (vendors_collection s) = Some vendor ->
  is_Some (student !! "_id") ->
  is_Some (vendor !! "_id") ->
  order !! "amount" = Some amount ->
  inc_value (student !! "wallet_balance") amount = Ret new_wallet_balance ->
  inc_value (vendor !! "balance") amount = Ret new_vendor_balance ->
  exists response s',
    verify_recharge_payment w payment s = (Ret response, s') /\
    find_one "student_id" student_id (students_collection s')
      = Some (<["wallet_balance" := new_wallet_balance]> student) /\
    find_one "vendor_id" vendor_id (vendors_collection s')
      = Some (<["balance" := new_vendor_balance]> vendor) /\
    response !! "new_balance" = Some new_wallet_balance.
Proof.
  intros Hpid Hoid Hsid Hvid Hsig Ho Hs Hv [sid' Hs_id] [vid' Hv_id] Hamt
    Hsinc Hvinc.
  destruct (find_one_and_updateM_found students "student_id" student_id
              "wallet_balance" amount s student _ Hs Hsinc
              ltac:(discriminate)) as (ls & Hus & Hfs).
  destruct (find_one_and_updateM_found vendors "vendor_id" vendor_id
              "balance" amount (set_coll students ls s) vendor _ Hv Hvinc
              ltac:(discriminate)) as (lv & Huv & Hfv).
  unfold verify_recharge_payment, reraise_http.
  unfold try_except at 1.
  unfold get at 1 2. rewrite Hpid, Hoid. simpl default. rewrite Hsig. step.
  unfold getitem at 1. rewrite Hoid. step.
  step_by ltac:(apply or_raise_found;
                [exact Ho|eapply py_not_lookup; exact Hamt]).
  unfold getitem at 1. rewrite Hsid. step.
  step_by ltac:(apply or_raise_found;
                [exact Hs|eapply py_not_lookup; exact Hs_id]).
  unfold getitem at 1. rewrite Hvid. step.
  step_by ltac:(apply or_raise_found;
                [exact Hv|eapply py_not_lookup; exact Hv_id]).
  unfold getitem at 1. rewrite Hamt. step.
  step_by ltac:(exact Hus).
  unfold getitem at 1. rewrite Hamt. step.
  step_by ltac:(exact Huv).
  unfold getitem at 1. rewrite Hpid. do 2 step.
  step_by ltac:(apply swallow_readonly; frame_tac).
  unfold get. rewrite lookup_insert_eq. simpl default.
  do 2 eexists. split; [reflexivity|]. simpl.
  repeat split; try assumption; reflexivity.
Qed.

(** The scenario of the specification: a recharge order of 200 is created
    and then verified. *)
Lemma verify_recharge_payment_increments_witness :
  exists response s',
    verify_recharge_payment (world 2 "t2") (verification "order_20000")
        (create_recharge_order (world 1 "t1") (recharge 200) campus).2
      = (Ret response, s') /\
    find_one "student_id" (VStr "S1") (students_collection s')
      = Some (<["wallet_balance" := VFloat 200]> S1) /\
    find_one "vendor_id" (VStr "V1") (vendors_collection s')
      = Some (<["balance" := VFloat 250]> V1) /\
    response !! "new_balance" = Some (VFloat 200).
Proof.
  eapply (verify_recharge_payment_increments (world 2 "t2")
            (verification "order_20000") _ _ S1 V1
            (VStr "pay_1") (VStr "order_20000") (VStr "S1") (VStr "V1")
            (VFloat 200) (VFloat 200) (VFloat 250));
    try (vm_compute; reflexivity);
    vm_compute; eexists; reflexivity.
Defined.

(** C6. When the signature is valid and the order id of the request is that
    of no stored transaction, the verification fails with status 404 and
    detail "Order not found", and the store is left as it was. *)
Theorem verify_recharge_payment_unknown_order (w : World) (payment : document)
    (s : db) (order_id : value) :
  verify_payment_signature w
    (get payment "razorpay_payment_id" VNone)
    (get payment "razorpay_order_id" VNone)
    (get payment "razorpay_signature" VNone) = Ret tt ->
  payment !! "razorpay_order_id" = Some order_id ->
  find_one "order_id" order_id (transactions_collection s) = None ->
  verify_recharge_payment w payment s
    = (Raise (HTTPException 404 "Order not found"), s).
Proof.
  intros Hsig Hoid Ho.
  unfold verify_recharge_payment, reraise_http.
  unfold try_except at 1.
  rewrite Hsig. step.
  unfold getitem at 1. rewrite Hoid. step.
  erewrite bind_raise_eq; [|apply or_raise_missing; exact Ho].
  reflexivity.
Qed.

Lemma verify_recharge_payment_unknown_order_witness :
  verify_recharge_payment (world 2 "t2") (verification "order_1") campus
    = (Raise (HTTPException 404 "Order not found"), campus).
Proof.
  apply (verify_recharge_payment_unknown_order (world 2 "t2")
           (verification "order_1") campus (VStr "order_1"));
    vm_compute; reflexivity.
Defined.

(** C3. Whatever the request, the store and the answers of the gateway and
    of the SMS provider, [create_recharge_order] leaves the students and
    the vendors collections as they were, hence every balance and
    wallet_balance; [verify_recharge_payment] does change balances: in the
    scenario the student's wallet_balance goes from missing to 200. *)
Theorem create_recharge_order_keeps_balances :
  (forall (w : World) (request : WalletRechargeRequest) (s : db),
     same_accounts s (create_recharge_order w request s).2) /\
  (exists (w : World) (payment : document) (s : db) (student student' : document),
     find_one "student_id" (VStr "S1") (students_collection s) = Some student /\
     find_one "student_id" (VStr "S1")
         (students_collection (verify_recharge_payment w payment s).2)
       = Some student' /\
     student !! "wallet_balance" = None /\
     student' !! "wallet_balance" = Some (VFloat 200)).
Proof.
  split.
  - intros w request.
    change (frame same_accounts (create_recharge_order w request)).
    unfold create_recharge_order. frame_tac.
  - exists (world 2 "t2"), (verification "order_20000"),
      (create_recharge_order (world 1 "t1") (recharge 200) campus).2,
      S1, (<["wallet_balance" := VFloat 200]> S1).
    repeat split; vm_compute; reflexivity.
Qed.

(** The amount [create_recharge_order] answers with is the amount it asked
    the gateway for, the integer part of the binary64 product of the
    request's amount and 100, in the currency "INR". *)
Lemma create_recharge_order_amount (w : World)
    (request : WalletRechargeRequest) (s s' : db) (response : document) :
  create_recharge_order w request s = (Ret response, s') ->
  exists order_amount order,
    int_of_float (PrimFloat.mul (rr_amount request) 100) = Ret order_amount /\
    order_create w
      {| od_amount := order_amount;
         od_currency := "INR";
         od_payment_capture := 1;
         od_notes_student_id := rr_student_id request;
         od_notes_vendor_id := rr_vendor_id request |} = Ret order /\
    response !! "amount" = Some (VInt order_amount) /\
    response !! "currency" = Some (VStr "INR").
Proof.
  intros H. unfold create_recharge_order in H.
  apply reraise_http_ret_inv in H.
  apply bind_ret_inv in H as (student & s1 & _ & H).
  apply bind_ret_inv in H as (vendor & s2 & _ & H).
  apply bind_ret_inv in H as (order_amount & s3 & Hamt & H).
  cbv zeta in H.
  apply bind_ret_inv in H as (order & s4 & Hord & H).
  apply bind_ret_inv in H as (order_id & s5 & _ & H).
  apply bind_ret_inv in H as (inserted & s6 & _ & H).
  apply bind_ret_inv in H as (parent & s7 & _ & H).
  apply bind_ret_inv in H as (u & s8 & _ & H).
  apply bind_ret_inv in H as (order_id' & s9 & _ & H).
  injection H as <- _. injection Hamt as Hamt _.
  exists order_amount, order. repeat split; try assumption; try reflexivity.
  unfold try_except, lift in Hord.
  destruct (order_create w _) as [order'|e]; [|discriminate].
  injection Hord as -> _. reflexivity.
Qed.

(** C7. The order amount sent to the gateway and returned to the client
    is meant to be 100 times the requested amount. For a recharge of 0.29
    rupees, that is 29 paise, it is 28: the gateway of the scenario names an
    order after the amount it is asked for, and both the order id and the
    amount of the response say 28. The currency is "INR". *)
Theorem create_recharge_order_0_29_rupees :
  exists response s',
    create_recharge_order (world 1 "t1") (recharge rupees_0_29) campus
      = (Ret response, s') /\
    response !! "id" = Some (VStr "order_28") /\
    response !! "amount" = Some (VInt 28) /\
    response !! "currency" = Some (VStr "INR").
Proof. do 2 eexists. repeat split; vm_compute; reflexivity. Qed.

(** For a whole number of rupees the conversion is the expected one. *)
Example create_recharge_order_200_rupees :
  exists response s',
    create_recharge_order (world 1 "t1") (recharge 200) campus
      = (Ret response, s') /\
    response !! "id" = Some (VStr "order_20000") /\
    response !! "amount" = Some (VInt 20000).
Proof. do 2 eexists. repeat split; vm_compute; reflexivity. Qed.

(** With the gateway and the SMS provider down the order is refused with
    status 500 and nothing is stored. *)
Example create_recharge_order_offline :
  create_recharge_order (world_offline 1 "t1") (recharge 200) campus
    = (Raise (HTTPException 500 "Failed to create payment order: error"),
       campus).
Proof. vm_compute. reflexivity. Qed.

(* ===================================================================== *)
(** * Queries                                                              *)
(* ===================================================================== *)

(** C8. The transactions of a student are meant to be listed newest
    first. A student who recharges at time 1 (record "t1") and buys at time
    2 (record "t2") gets the recharge first and the purchase, the newer
    record, after it. The amounts are shown as text with the currency sign
    in front. *)
Theorem get_student_transactions_purchase_after_recharge :
  let s1 := (create_recharge_order (world 1 "t1") (recharge 200) campus).2 in
  let s2 := (process_student_payment (world 2 "t2") (purchase 30) s1).2 in
  exists shown,
    get_student_transactions (world 3 "t3") "S1" s2 = (Ret shown, s2) /\
    map (fun d : document => d !! "_id") shown
      = [Some (VStr "t1"); Some (VStr "t2")] /\
    map (fun d : document => d !! "date") shown
      = [Some (VStr "day 1"); Some (VStr "day 2")] /\
    map (fun d : document => d !! "amount") shown
      = [Some (VStr "₹200.0"); Some (VStr "₹30.0")].
Proof. eexists. repeat split; vm_compute; reflexivity. Qed.

(** C10. For an existing student, [GET /student/{id}] answers with the
    stored document in which [_id] is replaced by its text and every other
    field is as stored: the password and both balances are in the
    response. *)
Theorem get_student_returns_stored_document (w : World) (student_id : string)
    (s : db) (student : document) (_id : value) :
  find_one "student_id" (VStr student_id) (students_collection s)
    = Some student ->
  student !! "_id" = Some _id ->
  exists response,
    get_student w student_id s = (Ret response, s) /\
    response !! "_id" = Some (VStr (py_str w _id)) /\
    (forall k, k <> "_id" -> response !! k = student !! k) /\
    dom response = dom student /\
    response !! "password" = student !! "password" /\
    response !! "balance" = student !! "balance" /\
    response !! "wallet_balance" = student !! "wallet_balance".
Proof.
  intros Hs Hid. exists (<["_id" := VStr (py_str w _id)]> student).
  split; [|split; [|split; [|split]]].
  - unfold get_student.
    step_by ltac:(apply or_raise_found;
                  [exact Hs|eapply py_not_lookup; exact Hid]).
    unfold getitem. rewrite Hid. step. reflexivity.
  - apply lookup_insert_eq.
  - intros k Hk. apply lookup_insert_ne. congruence.
  - rewrite dom_insert_L. apply elem_of_dom_2 in Hid.
    apply subseteq_union_1_L, singleton_subseteq_l, Hid.
  - repeat split; apply lookup_insert_ne; discriminate.
Qed.

Lemma get_student_returns_stored_document_witness :
  exists response,
    get_student (world 4 "t4") "S1" campus = (Ret response, campus) /\
    response !! "_id" = Some (VStr "65f000000000000000000001") /\
    (forall k, k <> "_id" -> response !! k = S1 !! k) /\
    dom response = dom S1 /\
    response !! "password" = Some (VStr "secret") /\
    response !! "balance" = Some (VInt 100) /\
    response !! "wallet_balance" = None.
Proof.
  apply (get_student_returns_stored_document (world 4 "t4") "S1" campus S1
           (VOid "65f000000000000000000001"));
    vm_compute; reflexivity.
Defined.

(* ===================================================================== *)
(** * Notifications                                                        *)
(* ===================================================================== *)

(** C9. [send_payment_notification] and [verify_otp] return a boolean
    whatever the provider does: the first returns [True] exactly when every
    provider call returned, the second exactly when the check returned the
    status "approved"; an exception in any provider call gives [False]. *)
Theorem notification_bridge_never_raises (w : World)
    (phone_number message otp_code service_sid : string) :
  (exists sent, send_payment_notification w phone_number message = Ret sent) /\
  (send_payment_notification w phone_number message = Ret true <->
     twilio_Client w = Ret tt /\
     exists sid status,
       services_create w = Ret sid /\
       verifications_create w sid phone_number = Ret status) /\
  (exists approved,
     verify_otp w phone_number otp_code service_sid = Ret approved) /\
  (verify_otp w phone_number otp_code service_sid = Ret true <->
     twilio_Client w = Ret tt /\
     verification_checks_create w service_sid phone_number otp_code
       = Ret "approved").
Proof.
  unfold send_payment_notification, verify_otp, otry, obind.
  destruct (twilio_Client w) as [[]|e0].
  - split; [|split; [|split]].
    + destruct (services_create w) as [sid|e1]; [|eauto].
      destruct (verifications_create w sid phone_number); eauto.
    + destruct (services_create w) as [sid|e1].
      * destruct (verifications_create w sid phone_number) as [st|e2] eqn:E.
        -- split; [eauto 6|reflexivity].
        -- split; [discriminate|].
           intros (_ & sid' & st & Hsid & H).
           injection Hsid as <-. congruence.
      * split; [discriminate|]. intros (_ & sid' & st & H & _). discriminate.
    + destruct (verification_checks_create w service_sid phone_number otp_code);
        eauto.
    + destruct (verification_checks_create w service_sid phone_number otp_code)
        as [st|e1].
      * split.
        -- intros [= H]. apply String.eqb_eq in H. subst. auto.
        -- intros (_ & [= ->]). reflexivity.
      * split; [discriminate|]. intros (_ & H). discriminate.
  - split; [eauto|]. split; [|split; [eauto|]];
      (split; [discriminate|intros (H & _); discriminate]).
Qed.

(* ===================================================================== *)
(** * Purchases that are refused                                         *)
(* ===================================================================== *)

Lemma str_ne_other (s : string) (d : document) :
  d !! "password" <> Some (VStr s) -> str_ne s (get d "password" VNone) = true.
Proof.
  intros H. unfold get. destruct (d !! "password") as [[]|]; simpl; try reflexivity.
  apply negb_true_iff. apply String.eqb_neq. congruence.
Qed.

Lemma found_nonempty k (x : string) l (d : document) :
  find_one k (VStr x) l = Some d -> py_not (Some d) = false.
Proof.
  intros H. apply find_one_matches in H.
  destruct (matches_lookup k (VStr x) d ltac:(discriminate) H) as [v Hv].
  eapply py_not_lookup, Hv.
Qed.

(** X1. A purchase by a student who is not stored is refused with status
    404 and detail "Student not found"; the store is left as it was. *)
Theorem process_student_payment_unknown_student (w : World)
    (payment : StudentPaymentRequest) (s : db) :
  find_one "student_id" (VStr (sp_student_id payment)) (students_collection s)
    = None ->
  process_student_payment w payment s
    = (Raise (HTTPException 404 "Student not found"), s).
Proof.
  intros Hs. unfold process_student_payment, reraise_http.
  unfold try_except at 1.
  erewrite bind_raise_eq; [|apply or_raise_missing; exact Hs]. reflexivity.
Qed.

Lemma process_student_payment_unknown_student_witness :
  process_student_payment (world 3 "t3") (purchase_by "S9" "V1" "secret" 30)
      campus
    = (Raise (HTTPException 404 "Student not found"), campus).
Proof.
  apply (process_student_payment_unknown_student (world 3 "t3")
           (purchase_by "S9" "V1" "secret" 30) campus);
    vm_compute; reflexivity.
Defined.

(** X2. A purchase whose password is not exactly the stored one (a stored
    password that is missing or not a string never matches) is refused with
    status 401 and detail "Invalid student password", before any balance is
    looked at; the store is left as it was. *)
Theorem process_student_payment_wrong_password (w : World)
    (payment : StudentPaymentRequest) (s : db) (student : document) :
  find_one "student_id" (VStr (sp_student_id payment)) (students_collection s)
    = Some student ->
  student !! "password" <> Some (VStr (sp_password payment)) ->
  process_student_payment w payment s
    = (Raise (HTTPException 401 "Invalid student password"), s).
Proof.
  intros Hs Hpw. unfold process_student_payment, reraise_http.
  unfold try_except at 1.
  step_by ltac:(apply or_raise_found; [exact Hs|eapply found_nonempty, Hs]).
  rewrite (str_ne_other _ _ Hpw).
  erewrite bind_raise_eq; [|reflexivity]. reflexivity.
Qed.

(** A password that differs only in case. *)
Lemma process_student_payment_wrong_password_witness :
  process_student_payment (world 3 "t3") (purchase_by "S1" "V1" "Secret" 30)
      campus
    = (Raise (HTTPException 401 "Invalid student password"), campus).
Proof.
  apply (process_student_payment_wrong_password (world 3 "t3")
           (purchase_by "S1" "V1" "Secret" 30) campus S1);
    [vm_compute; reflexivity|vm_compute; discriminate].
Defined.

(** X3. When the student exists, the password is right and the balance is
    not below the amount, a purchase from a vendor who is not stored is
    refused with status 404 and detail "Vendor not found"; the store is left
    as it was. *)
Theorem process_student_payment_unknown_vendor (w : World)
    (payment : StudentPaymentRequest) (s : db) (student : document)
    (balance : value) :
  find_one "student_id" (VStr (sp_student_id payment)) (students_collection s)
    = Some student ->
  student !! "password" = Some (VStr (sp_password payment)) ->
  student !! "balance" = Some balance ->
  lt_float balance (sp_amount payment) = Ret false ->
  find_one "vendor_id" (VStr (sp_vendor_id payment)) (vendors_collection s)
    = None ->
  process_student_payment w payment s
    = (Raise (HTTPException 404 "Vendor not found"), s).
Proof.
  intros Hs Hpw Hb Hlt Hv. unfold process_student_payment, reraise_http.
  unfold try_except at 1.
  step_by ltac:(apply or_raise_found; [exact Hs|eapply found_nonempty, Hs]).
  unfold get at 1. rewrite Hpw. simpl default. rewrite str_ne_same. step.
  unfold getitem. rewrite Hb. step. rewrite Hlt. do 2 step.
  erewrite bind_raise_eq; [|apply or_raise_missing; exact Hv]. reflexivity.
Qed.

Lemma process_student_payment_unknown_vendor_witness :
  process_student_payment (world 3 "t3") (purchase_by "S1" "V9" "secret" 30)
      campus
    = (Raise (HTTPException 404 "Vendor not found"), campus).
Proof.
  apply (process_student_payment_unknown_vendor (world 3 "t3")
           (purchase_by "S1" "V9" "secret" 30) campus S1 (VInt 100));
    vm_compute; reflexivity.
Defined.

(** X4. When the stored student has no [balance] field, or one that is not
    a number, a purchase with the right password fails with status 500 whose
    detail is the text of the [KeyError] or [TypeError]; the store is left
    as it was. *)
Theorem process_student_payment_bad_balance (w : World)
    (payment : StudentPaymentRequest) (s : db) (student : document) :
  find_one "student_id" (VStr (sp_student_id payment)) (students_collection s)
    = Some student ->
  student !! "password" = Some (VStr (sp_password payment)) ->
  (student !! "balance" = None \/
   exists b, student !! "balance" = Some b /\ is_number b = false) ->
  exists e,
    process_student_payment w payment s
      = (Raise (HTTPException 500 (exn_str w e)), s) /\
    (e = KeyError "balance" \/ e = TypeError).
Proof.
  intros Hs Hpw Hb. unfold process_student_payment, reraise_http.
  unfold try_except at 1.
  step_by ltac:(apply or_raise_found; [exact Hs|eapply found_nonempty, Hs]).
  unfold get at 1. rewrite Hpw. simpl default. rewrite str_ne_same. step.
  unfold getitem. destruct Hb as [Hb|(b & Hb & Hn)]; rewrite Hb.
  - exists (KeyError "balance"). split; [|auto].
    erewrite bind_raise_eq; [|reflexivity]. reflexivity.
  - exists TypeError. split; [|auto]. step.
    destruct b; try discriminate;
      (erewrite bind_raise_eq; [|reflexivity]); reflexivity.
Qed.

Lemma process_student_payment_bad_balance_witness :
  exists e,
    process_student_payment (world 3 "t3") (purchase_by "S2" "V1" "pw" 30)
        campus2
      = (Raise (HTTPException 500 (exn_str (world 3 "t3") e)), campus2) /\
    (e = KeyError "balance" \/ e = TypeError).
Proof.
  apply (process_student_payment_bad_balance (world 3 "t3")
           (purchase_by "S2" "V1" "pw" 30) campus2 S2);
    [vm_compute; reflexivity|vm_compute; reflexivity|left; vm_compute; reflexivity].
Defined.

(* ===================================================================== *)
(** * The SMS provider has no say                                        *)
(* ===================================================================== *)

Lemma bind_ext {A B} (m : M A) (k k' : A -> M B) s :
  (forall a s', k a s' = k' a s') -> bind m k s = bind m k' s.
Proof. intros H. unfold bind. destruct (m s) as [[a|e] s']; auto. Qed.

Lemma bind_ext2 {A B} (m m' : M A) (k k' : A -> M B) s :
  m s = m' s -> (forall a s', k a s' = k' a s') -> bind m k s = bind m' k' s.
Proof. intros Hm H. unfold bind. rewrite Hm. destruct (m' s) as [[a|e] s']; auto. Qed.

Lemma send_payment_notification_returns w phone_number message :
  exists sent, send_payment_notification w phone_number message = Ret sent.
Proof.
  unfold send_payment_notification, otry, obind.
  destruct (twilio_Client w) as [[]|]; [|eauto].
  destruct (services_create w) as [sid|]; [|eauto].
  destruct (verifications_create w sid phone_number); eauto.
Qed.

Section Sms_independence.
Context (w : World) (client : outcome unit) (service : outcome string)
  (verification : string -> string -> outcome string)
  (check : string -> string -> string -> outcome string).
#[local] Abbreviation w' := (with_sms w client service verification check).

Lemma py_str_with_sms v : py_str w' v = py_str w v.
Proof. destruct v; reflexivity. Qed.

Lemma optional_str_with_sms v : optional_str w' v = optional_str w v.
Proof. destruct v; reflexivity. Qed.

Lemma get_parent_with_sms sid s :
  get_parent_by_student_id w' sid s = get_parent_by_student_id w sid s.
Proof.
  unfold get_parent_by_student_id. apply bind_ext. intros o s'.
  destruct (py_not o); [reflexivity|]. destruct o as [d|]; [|reflexivity].
  destruct (d !! "parent_phone"); [|reflexivity].
  rewrite !optional_str_with_sms. reflexivity.
Qed.

Lemma notify_parent_with_sms parent fmt amount vendor student s :
  (forall a v t, fmt w' a v t = fmt w a v t) ->
  notify_parent w' parent fmt amount vendor student s
    = notify_parent w parent fmt amount vendor student s.
Proof.
  intros Hf. unfold notify_parent. destruct (has_phone parent) as [ph|]; [|reflexivity].
  do 3 (apply bind_ext; intros ? ?). rewrite Hf.
  match goal with |- context [send_payment_notification w' ?p ?m] =>
    destruct (send_payment_notification_returns w' p m) as [b1 ->];
    destruct (send_payment_notification_returns w p m) as [b2 ->] end.
  reflexivity.
Qed.

Lemma format_recharge_with_sms a v t :
  format_recharge_message w' a v t = format_recharge_message w a v t.
Proof. unfold format_recharge_message. rewrite !py_str_with_sms. reflexivity. Qed.

Lemma format_purchase_with_sms a v t :
  format_purchase_message w' a v t = format_purchase_message w a v t.
Proof. unfold format_purchase_message. rewrite !py_str_with_sms. reflexivity. Qed.

Lemma try_except_ext {A} (m m' : M A) h s :
  m s = m' s -> try_except m h s = try_except m' h s.
Proof. intros H. unfold try_except. rewrite H. reflexivity. Qed.

(** X5. What the three payment handlers return, raise and store does not
    depend on the SMS provider: replacing every answer of the provider
    changes nothing. *)
Theorem handlers_ignore_sms_provider :
  (forall payment s,
     process_student_payment w' payment s = process_student_payment w payment s) /\
  (forall payment s,
     verify_recharge_payment w' payment s = verify_recharge_payment w payment s) /\
  (forall request s,
     create_recharge_order w' request s = create_recharge_order w request s).
Proof.
  split; [|split].
  - intros payment s. unfold process_student_payment, reraise_http.
    apply try_except_ext. cbv zeta.
    repeat (apply bind_ext; intros ? ?).
    apply bind_ext2.
    + apply try_except_ext. apply bind_ext2; [apply get_parent_with_sms|].
      intros ? ?. apply notify_parent_with_sms, format_purchase_with_sms.
    + intros ? ?. apply bind_ext. intros ? ?. rewrite py_str_with_sms. reflexivity.
  - intros payment s. unfold verify_recharge_payment, reraise_http.
    apply try_except_ext. cbv zeta.
    repeat (apply bind_ext; intros ? ?).
    apply bind_ext2; [|reflexivity].
    apply try_except_ext. apply bind_ext. intros ? ?.
    apply bind_ext2; [apply get_parent_with_sms|].
    intros ? ?. apply notify_parent_with_sms, format_recharge_with_sms.
  - intros request s. unfold create_recharge_order, reraise_http.
    apply try_except_ext. cbv zeta.
    repeat (apply bind_ext; intros ? ?).
    apply bind_ext2; [|reflexivity].
    apply notify_parent_with_sms, format_recharge_with_sms.
Qed.
End Sms_independence.

(* ===================================================================== *)
(** * What no handler does                                               *)
(* ===================================================================== *)

#[local] Instance accounts_kept_preorder : PreOrder accounts_kept.
Proof.
  split.
  - intros s. unfold accounts_kept. auto.
  - intros s1 s2 s3 (H1 & H2 & H3) (H4 & H5 & H6). unfold accounts_kept.
    repeat split; [congruence|congruence|lia].
Qed.

Lemma modify_first_length p u l r l' :
  modify_first p u l = Ret (r, l') -> length l' = length l.
Proof.
  revert r l'. induction l as [|d l IH]; simpl; intros r l'.
  - intros [= <- <-]. reflexivity.
  - destruct (p d).
    + destruct (u d); simpl; [|discriminate]. intros [= <- <-]. reflexivity.
    + destruct (modify_first p u l) as [[r0 l0]|]; simpl; [|discriminate].
      intros [= <- <-]. simpl. f_equal. eapply IH. reflexivity.
Qed.

Lemma update_one_set_length k q fields l :
  length (update_one_set k q fields l) = length l.
Proof.
  unfold update_one_set.
  destruct (modify_first _ _ l) as [[r l']|] eqn:E; [|reflexivity].
  eapply modify_first_length, E.
Qed.

Lemma update_one_set_matched_length k q fields l :
  length (update_one_set_matched k q fields l).2 = length l.
Proof.
  unfold update_one_set_matched.
  destruct (modify_first _ _ l) as [[[r|] l']|] eqn:E; simpl;
    try reflexivity; eapply modify_first_length, E.
Qed.

Lemma set_coll_kept c l s :
  length l = length (get_coll c s) -> accounts_kept s (set_coll c l s).
Proof.
  intros H. destruct c; simpl in *; unfold accounts_kept; simpl;
    repeat split; auto; lia.
Qed.

Lemma frame_update_oneM c k q fields :
  frame accounts_kept (update_oneM c k q fields).
Proof. intros s. apply set_coll_kept, update_one_set_length. Qed.

Lemma frame_update_one_matchedM c k q fields :
  frame accounts_kept (update_one_matchedM c k q fields).
Proof.
  intros s. unfold update_one_matchedM.
  pose proof (update_one_set_matched_length k q fields (get_coll c s)) as H.
  destruct (update_one_set_matched k q fields (get_coll c s)) as [n l].
  apply set_coll_kept, H.
Qed.

Lemma frame_find_one_and_updateM c k q field amt :
  frame accounts_kept (find_one_and_updateM c k q field amt).
Proof.
  intros s. unfold find_one_and_updateM, find_one_and_update_inc.
  destruct (modify_first _ _ _) as [[r l]|] eqn:E; simpl; [|reflexivity].
  apply set_coll_kept. eapply modify_first_length, E.
Qed.

Lemma frame_insert_oneM_kept w doc :
  frame accounts_kept (insert_oneM w transactions doc).
Proof.
  intros s. unfold insert_oneM, insert_one. simpl. unfold accounts_kept. simpl.
  rewrite length_app. simpl. repeat split; lia.
Qed.

Ltac kept_tac :=
  repeat (cbv zeta; first
    [ apply frame_update_oneM | apply frame_update_one_matchedM
    | apply frame_find_one_and_updateM | apply frame_insert_oneM_kept
    | apply frame_ret | apply frame_raise | apply frame_lift
    | apply frame_find_oneM | apply frame_find_sortedM | apply frame_raise_if
    | apply frame_get_parent | apply frame_notify_parent
    | apply frame_or_raise | apply frame_reraise_http
    | apply frame_try_except | apply frame_bind
    | intros ? | apply _ ]).

(** X6. On every path, also the failing ones, the four handlers that write
    leave the number of students and the number of vendors as they were,
    and never make the transaction log shorter. *)
Theorem handlers_keep_accounts (w : World) :
  (forall request, frame accounts_kept (create_recharge_order w request)) /\
  (forall payment, frame accounts_kept (verify_recharge_payment w payment)) /\
  (forall payment, frame accounts_kept (process_student_payment w payment)) /\
  (forall parent_update, frame accounts_kept (update_parent_phone w parent_update)).
Proof.
  split; [|split; [|split]]; intros x.
  - unfold create_recharge_order. kept_tac.
  - unfold verify_recharge_payment. kept_tac.
    match goal with
    | |- context [match ?x with Some _ => _ | None => _ end] => destruct x
    end; kept_tac.
  - unfold process_student_payment. kept_tac.
  - unfold update_parent_phone. kept_tac.
Qed.

Lemma frame_findM c k q : frame eq (findM c k q).
Proof. intros s. reflexivity. Qed.

(** X7. The query handlers, the parent lookup and the OTP check leave the
    store as it was, whatever they return or raise. *)
Theorem queries_are_read_only (w : World) :
  (forall student_id, frame eq (get_student w student_id)) /\
  (forall vendor_id, frame eq (get_vendor vendor_id)) /\
  (forall student_id, frame eq (get_student_transactions w student_id)) /\
  (forall vendor_id, frame eq (get_vendor_transactions w vendor_id)) /\
  (forall student_id, frame eq (get_parent_by_student_id w student_id)) /\
  (forall verification, frame eq (verify_payment_otp w verification)).
Proof.
  split; [|split; [|split; [|split; [|split]]]]; intros x.
  - unfold get_student. frame_tac.
  - unfold get_vendor. frame_tac.
  - unfold get_student_transactions. frame_tac.
  - unfold get_vendor_transactions. repeat first [apply frame_findM | progress frame_tac].
  - frame_tac.
  - unfold verify_payment_otp. frame_tac.
Qed.

(* ===================================================================== *)
(** * The order of a student's transactions                              *)
(* ===================================================================== *)

Lemma insert_desc_perm k d l : Permutation (insert_desc k d l) (d :: l).
Proof.
  induction l as [|x l IH]; simpl; [reflexivity|].
  destruct (bson_compare (x !! k) (d !! k)); try reflexivity.
  rewrite IH. apply perm_swap.
Qed.

Lemma sort_desc_perm k l : Permutation (sort_desc k l) l.
Proof.
  induction l as [|x l IH]; simpl; [reflexivity|].
  unfold sort_desc in *. simpl. rewrite insert_desc_perm. constructor. exact IH.
Qed.

Lemma insert_desc_hd k d x l :
  not_before k x d -> HdRel (not_before k) x l ->
  HdRel (not_before k) x (insert_desc k d l).
Proof.
  intros Hxd Hl. destruct l as [|y l]; simpl; [constructor; exact Hxd|].
  destruct (bson_compare (y !! k) (d !! k)); constructor;
    first [exact Hxd | inversion Hl; assumption].
Qed.

Lemma insert_desc_sorted k d l :
  Sorted (not_before k) l -> Sorted (not_before k) (insert_desc k d l).
Proof.
  induction 1 as [|x l Hs IH Hh]; simpl; [repeat constructor|].
  destruct (bson_compare (x !! k) (d !! k)) eqn:E.
  - constructor; [constructor; assumption|]. constructor. right. congruence.
  - constructor; [constructor; assumption|]. constructor. right. congruence.
  - constructor; [exact IH|]. apply insert_desc_hd; [left; exact E|exact Hh].
Qed.

Lemma sort_desc_sorted k l : Sorted (not_before k) (sort_desc k l).
Proof.
  induction l as [|x l IH]; [constructor|]. apply insert_desc_sorted, IH.
Qed.

Lemma not_before_newest_first a b :
  dated_or_missing a = true -> dated_or_missing b = true ->
  not_before "created_at" a b -> newest_first a b.
Proof.
  unfold not_before, newest_first, created, dated_or_missing.
  destruct (a !! "created_at") as [[| | | |ta|]|],
           (b !! "created_at") as [[| | | |tb|]|];
    try discriminate; intros _ _; simpl; auto.
  - unfold bson_compare; simpl.
    destruct (Z.compare_spec ta tb), (Z.compare_spec tb ta);
      intros [Hn|Hn]; try lia; try discriminate; congruence.
  - intros [H|H]; [discriminate|]. apply H. reflexivity.
Qed.

Lemma newest_first_transitive a b c :
  newest_first a b -> newest_first b c -> newest_first a c.
Proof.
  unfold newest_first.
  destruct (created a), (created b), (created c); try tauto; lia.
Qed.

Lemma Sorted_weaken {A} (R R' : A -> A -> Prop) (P : A -> Prop) l :
  (forall a b, P a -> P b -> R a b -> R' a b) ->
  Forall P l -> Sorted R l -> Sorted R' l.
Proof.
  intros HR HP Hs. induction Hs as [|x l Hs IH Hh]; [constructor|].
  inversion HP as [|? ? Hx Hl]; subst. constructor; [auto|].
  destruct Hh as [|y l' Hxy]; constructor.
  inversion Hl; subst. auto.
Qed.

Lemma format_transactions_Forall2 w l shown :
  format_transactions w l = Ret shown ->
  Forall2 (fun t f => format_transaction w t = Ret f) l shown.
Proof.
  revert shown. induction l as [|t l IH]; simpl; intros shown.
  - intros [= <-]. constructor.
  - destruct (format_transaction w t) as [f|] eqn:E; simpl; [|discriminate].
    destruct (format_transactions w l) as [fs|]; simpl; [|discriminate].
    intros [= <-]. constructor; auto.
Qed.

(** X8. When every transaction of the student has a [created_at] that is a
    datetime or is missing, the transactions shown are the student's
    transactions, each once, the ones with a [created_at] first by
    decreasing time and the ones without after them, each shown in the
    format of [format_transaction]. *)
Theorem get_student_transactions_order (w : World) (student_id : string)
    (s s' : db) (shown : list document) :
  forallb dated_or_missing
    (find "student_id" (VStr student_id) (transactions_collection s)) = true ->
  get_student_transactions w student_id s = (Ret shown, s') ->
  exists listed,
    Permutation listed
      (find "student_id" (VStr student_id) (transactions_collection s)) /\
    StronglySorted newest_first listed /\
    Forall2 (fun t f => format_transaction w t = Ret f) listed shown.
Proof.
  intros Hd H. unfold get_student_transactions in H.
  apply bind_ret_inv in H as (student & s1 & H1 & H).
  apply bind_ret_inv in H as (listed & s2 & H2 & H).
  unfold find_sortedM in H2. injection H2 as <- <-.
  unfold lift in H. injection H as H _.
  exists (find_sorted_desc "student_id" (VStr student_id) "created_at"
            (get_coll transactions s1)).
  assert (s1 = s) as ->.
  { pose proof (frame_or_raise eq (find_oneM students "student_id" (VStr student_id))
      (HTTPException 404 "Student not found") (frame_find_oneM eq _ _ _) s) as Hf.
    rewrite H1 in Hf. simpl in Hf. congruence. }
  assert (Hperm : Permutation
            (find_sorted_desc "student_id" (VStr student_id) "created_at"
               (get_coll transactions s))
            (find "student_id" (VStr student_id) (transactions_collection s))).
  { apply sort_desc_perm. }
  split; [exact Hperm|]. split; [|apply format_transactions_Forall2, H].
  apply Sorted_StronglySorted; [exact newest_first_transitive|].
  eapply Sorted_weaken; [apply not_before_newest_first| |apply sort_desc_sorted].
  eapply Permutation_Forall; [symmetry; exact Hperm|].
  apply Forall_forall. intros d Hin. apply list_elem_of_In in Hin.
  eapply forallb_forall in Hd; [exact Hd|exact Hin].
Qed.

Lemma get_student_transactions_order_witness :
  exists listed,
    Permutation listed
      (find "student_id" (VStr "S1") (transactions_collection campus_traded)) /\
    StronglySorted newest_first listed /\
    Forall2 (fun t f => format_transaction (world 3 "t3") t = Ret f) listed
      (match (get_student_transactions (world 3 "t3") "S1" campus_traded).1 with
       | Ret shown => shown
       | Raise _ => []
       end).
Proof.
  apply (get_student_transactions_order (world 3 "t3") "S1" campus_traded
           campus_traded);
    vm_compute; reflexivity.
Defined.

(* ===================================================================== *)
(** * Verifications, once more                                           *)
(* ===================================================================== *)

Lemma frame_eq_state {A} (m : M A) s o s' :
  frame eq m -> m s = (o, s') -> s' = s.
Proof. intros Hf H. specialize (Hf s). rewrite H in Hf. simpl in Hf. congruence. Qed.

Lemma or_raise_ret_inv c k q e s d s' :
  or_raise (find_oneM c k q) e s = (Ret d, s') ->
  s' = s /\ find_one k q (get_coll c s) = Some d /\ py_not (Some d) = false.
Proof.
  unfold or_raise, bind, find_oneM.
  destruct (find_one k q (get_coll c s)) as [d'|]; [|discriminate].
  destruct (py_not (Some d')) eqn:E; [discriminate|].
  intros [= <- <-]. auto.
Qed.

Lemma modify_first_raise p u l d e :
  List.find p l = Some d -> u d = Raise e -> modify_first p u l = Raise e.
Proof.
  induction l as [|x l IH]; simpl; [discriminate|].
  destruct (p x).
  - intros [= ->] ->. reflexivity.
  - intros Hf Hu. rewrite (IH Hf Hu). reflexivity.
Qed.

Lemma inc_value_raise old amt e :
  inc_value old amt = Raise e -> e = OperationFailure.
Proof.
  unfold inc_value, bson_add.
  destruct old as [[]|], amt; simpl; try congruence;
    repeat match goal with |- context [if ?c then _ else _] => destruct c end;
    congruence.
Qed.

Lemma verify_recharge_payment_state (w : World) (payment : document)
    (s : db) (order student vendor : document)
    (payment_id order_id student_id vendor_id : value)
    (amount new_wallet_balance new_vendor_balance : value) :
  verification_accepted w payment s payment_id order_id student_id vendor_id
    order student vendor amount ->
  inc_value (student !! "wallet_balance") amount = Ret new_wallet_balance ->
  inc_value (vendor !! "balance") amount = Ret new_vendor_balance ->
  exists s',
    verify_recharge_payment w payment s
      = (Ret (dict [
           ("status", VStr "success");
           ("message", VStr "Payment verified and processed successfully");
           ("new_balance", new_wallet_balance) ]), s') /\
    find_one "student_id" student_id (students_collection s')
      = Some (<["wallet_balance" := new_wallet_balance]> student) /\
    find_one "vendor_id" vendor_id (vendors_collection s')
      = Some (<["balance" := new_vendor_balance]> vendor) /\
    find_one "order_id" order_id (transactions_collection s')
      = Some (completed w payment_id order) /\
    length (transactions_collection s') = length (transactions_collection s).
Proof.
  intros (Hpid & Hoid & Hsid & Hvid & Hsig & Ho & Hs & Hv & Hsn & Hvn & Hamt)
    Hsinc Hvinc.
  destruct (find_one_and_updateM_found students "student_id" student_id
              "wallet_balance" amount s student _ Hs Hsinc
              ltac:(discriminate)) as (ls & Hus & Hfs).
  destruct (find_one_and_updateM_found vendors "vendor_id" vendor_id
              "balance" amount (set_coll students ls s) vendor _ Hv Hvinc
              ltac:(discriminate)) as (lv & Huv & Hfv).
  pose proof (update_one_set_spec "order_id" order_id
                [ ("status", VStr "completed");
                  ("payment_id", payment_id);
                  ("completed_at", VDate (now w));
                  ("formatted_date", VStr (strftime w (now w))) ] _ _ Ho) as Hfo.
  simpl in Hfo. rewrite !matches_insert_ne in Hfo by discriminate.
  specialize (Hfo (find_one_matches _ _ _ _ Ho)).
  unfold verify_recharge_payment, reraise_http.
  unfold try_except at 1.
  unfold get at 1 2. rewrite Hpid, Hoid. simpl default. rewrite Hsig. step.
  unfold getitem at 1. rewrite Hoid. step.
  step_by ltac:(apply or_raise_found;
                [exact Ho|eapply py_not_lookup; exact Hamt]).
  unfold getitem at 1. rewrite Hsid. step.
  step_by ltac:(apply or_raise_found; [exact Hs|exact Hsn]).
  unfold getitem at 1. rewrite Hvid. step.
  step_by ltac:(apply or_raise_found; [exact Hv|exact Hvn]).
  unfold getitem at 1. rewrite Hamt. step.
  step_by ltac:(exact Hus).
  unfold getitem at 1. rewrite Hamt. step.
  step_by ltac:(exact Huv).
  unfold getitem at 1. rewrite Hpid. do 2 step.
  step_by ltac:(apply swallow_readonly; frame_tac).
  unfold get. rewrite lookup_insert_eq. simpl default.
  eexists. split; [reflexivity|]. simpl.
  repeat split; try assumption. apply update_one_set_length.
Qed.

Lemma completed_lookup w payment_id (order : document) k :
  k <> "status" -> k <> "payment_id" -> k <> "completed_at" ->
  k <> "formatted_date" ->
  completed w payment_id order !! k = order !! k.
Proof.
  intros. unfold completed. simpl. rewrite !lookup_insert_ne by congruence.
  reflexivity.
Qed.

(** X11. A successful verification rewrites the stored order in place: its
    status becomes "completed", [payment_id] becomes the payment id of the
    request, [completed_at] and [formatted_date] the time of the
    verification; every other field, the amount among them, is kept, and no
    transaction is added. *)
Theorem verify_recharge_payment_completes_order (w : World)
    (payment : document) (s : db) (order student vendor : document)
    (payment_id order_id student_id vendor_id : value)
    (amount new_wallet_balance new_vendor_balance : value) :
  verification_accepted w payment s payment_id order_id student_id vendor_id
    order student vendor amount ->
  inc_value (student !! "wallet_balance") amount = Ret new_wallet_balance ->
  inc_value (vendor !! "balance") amount = Ret new_vendor_balance ->
  exists response s' order',
    verify_recharge_payment w payment s = (Ret response, s') /\
    find_one "order_id" order_id (transactions_collection s') = Some order' /\
    order' !! "status" = Some (VStr "completed") /\
    order' !! "payment_id" = Some payment_id /\
    order' !! "completed_at" = Some (VDate (now w)) /\
    order' !! "formatted_date" = Some (VStr (strftime w (now w))) /\
    (forall k, k <> "status" -> k <> "payment_id" -> k <> "completed_at" ->
       k <> "formatted_date" -> order' !! k = order !! k) /\
    length (transactions_collection s') = length (transactions_collection s).
Proof.
  intros Ha Hsinc Hvinc.
  destruct (verify_recharge_payment_state _ _ _ _ _ _ _ _ _ _ _ _ _
              Ha Hsinc Hvinc) as (s' & Hrun & _ & _ & Ho & Hlen).
  do 2 eexists. exists (completed w payment_id order).
  split; [exact Hrun|]. split; [exact Ho|].
  unfold completed; simpl.
  repeat split; try assumption;
    try (intros; rewrite !lookup_insert_ne by congruence; reflexivity);
    repeat first [apply lookup_insert_eq | rewrite lookup_insert_ne by discriminate].
Qed.

Lemma verification_accepted_scenario :
  verification_accepted (world 2 "t2") (verification "order_20000")
    campus_ordered (VStr "pay_1") (VStr "order_20000") (VStr "S1") (VStr "V1")
    (pending_order (world 1 "t1") (recharge 200) (VStr "order_20000"))
    S1 V1 (VFloat 200).
Proof. repeat split; vm_compute; reflexivity. Defined.

Lemma verify_recharge_payment_completes_order_witness :
  exists response s' order',
    verify_recharge_payment (world 2 "t2") (verification "order_20000")
        campus_ordered = (Ret response, s') /\
    find_one "order_id" (VStr "order_20000") (transactions_collection s')
      = Some order' /\
    order' !! "status" = Some (VStr "completed") /\
    order' !! "payment_id" = Some (VStr "pay_1") /\
    order' !! "completed_at" = Some (VDate 2) /\
    order' !! "formatted_date" = Some (VStr "day 2") /\
    (forall k, k <> "status" -> k <> "payment_id" -> k <> "completed_at" ->
       k <> "formatted_date" ->
       order' !! k
         = pending_order (world 1 "t1") (recharge 200) (VStr "order_20000")
             !! k) /\
    length (transactions_collection s')
      = length (transactions_collection campus_ordered).
Proof.
  apply (verify_recharge_payment_completes_order (world 2 "t2")
           (verification "order_20000") campus_ordered
           (pending_order (world 1 "t1") (recharge 200) (VStr "order_20000"))
           S1 V1 (VStr "pay_1") (VStr "order_20000") (VStr "S1") (VStr "V1")
           (VFloat 200) (VFloat 200) (VFloat 250)
           verification_accepted_scenario);
    vm_compute; reflexivity.
Defined.

(** X12. A verification is not remembered: sent a second time with a
    signature that verifies, the same request succeeds again and increments
    the wallet balance and the vendor balance a second time. *)
Theorem verify_recharge_payment_replayed (w w2 : World)
    (payment : document) (s : db) (order student vendor : document)
    (payment_id order_id student_id vendor_id : value)
    (amount wallet1 vendor1 wallet2 vendor2 : value) :
  verification_accepted w payment s payment_id order_id student_id vendor_id
    order student vendor amount ->
  verify_payment_signature w2 payment_id order_id
    (get payment "razorpay_signature" VNone) = Ret tt ->
  inc_value (student !! "wallet_balance") amount = Ret wallet1 ->
  inc_value (vendor !! "balance") amount = Ret vendor1 ->
  inc_value (Some wallet1) amount = Ret wallet2 ->
  inc_value (Some vendor1) amount = Ret vendor2 ->
  exists response1 s1 response2 s2,
    verify_recharge_payment w payment s = (Ret response1, s1) /\
    verify_recharge_payment w2 payment s1 = (Ret response2, s2) /\
    response2 !! "new_balance" = Some wallet2 /\
    find_one "student_id" student_id (students_collection s2)
      = Some (<["wallet_balance" := wallet2]> student) /\
    find_one "vendor_id" vendor_id (vendors_collection s2)
      = Some (<["balance" := vendor2]> vendor).
Proof.
  intros Ha Hsig2 Hs1 Hv1 Hs2 Hv2.
  destruct (verify_recharge_payment_state _ _ _ _ _ _ _ _ _ _ _ _ _
              Ha Hs1 Hv1) as (s1 & Hrun1 & Hfs & Hfv & Hfo & _).
  destruct Ha as (Hpid & Hoid & Hsid & Hvid & _ & _ & _ & _ & _ & _ & Hamt).
  destruct (verify_recharge_payment_state w2 payment s1
              (completed w payment_id order)
              (<["wallet_balance" := wallet1]> student)
              (<["balance" := vendor1]> vendor)
              payment_id order_id student_id vendor_id amount wallet2 vendor2)
    as (s2 & Hrun2 & Hfs2 & Hfv2 & _).
  { repeat split; try assumption.
    - eapply py_not_lookup, lookup_insert_eq.
    - eapply py_not_lookup, lookup_insert_eq.
    - rewrite completed_lookup by discriminate. exact Hamt. }
  { rewrite lookup_insert_eq. exact Hs2. }
  { rewrite lookup_insert_eq. exact Hv2. }
  rewrite insert_insert_eq in Hfs2, Hfv2.
  do 4 eexists. split; [exact Hrun1|]. split; [exact Hrun2|].
  split; [reflexivity|]. split; assumption.
Qed.

(** The recharge of 200 verified twice: the wallet holds 400. *)
Lemma verify_recharge_payment_replayed_witness :
  exists response1 s1 response2 s2,
    verify_recharge_payment (world 2 "t2") (verification "order_20000")
        campus_ordered = (Ret response1, s1) /\
    verify_recharge_payment (world 3 "t3") (verification "order_20000") s1
      = (Ret response2, s2) /\
    response2 !! "new_balance" = Some (VFloat 400) /\
    find_one "student_id" (VStr "S1") (students_collection s2)
      = Some (<["wallet_balance" := VFloat 400]> S1) /\
    find_one "vendor_id" (VStr "V1") (vendors_collection s2)
      = Some (<["balance" := VFloat 450]> V1).
Proof.
  apply (verify_recharge_payment_replayed (world 2 "t2") (world 3 "t3")
           (verification "order_20000") campus_ordered
           (pending_order (world 1 "t1") (recharge 200) (VStr "order_20000"))
           S1 V1 (VStr "pay_1") (VStr "order_20000") (VStr "S1") (VStr "V1")
           (VFloat 200) (VFloat 200) (VFloat 250) (VFloat 400) (VFloat 450)
           verification_accepted_scenario);
    vm_compute; reflexivity.
Defined.

(** X13. The two increments are separate writes: when the increment of the
    vendor's balance is refused by the store (a balance that is not a
    number, say), the verification fails with status 500 although the
    student's wallet balance has already been incremented and stays so; the
    vendors and the order are left as they were. *)
Theorem verify_recharge_payment_vendor_update_fails (w : World)
    (payment : document) (s : db) (order student vendor : document)
    (payment_id order_id student_id vendor_id : value)
    (amount new_wallet_balance : value) (e : exn) :
  verification_accepted w payment s payment_id order_id student_id vendor_id
    order student vendor amount ->
  inc_value (student !! "wallet_balance") amount = Ret new_wallet_balance ->
  inc_value (vendor !! "balance") amount = Raise e ->
  exists s',
    verify_recharge_payment w payment s
      = (Raise (HTTPException 500 (exn_str w OperationFailure)), s') /\
    find_one "student_id" student_id (students_collection s')
      = Some (<["wallet_balance" := new_wallet_balance]> student) /\
    vendors_collection s' = vendors_collection s /\
    transactions_collection s' = transactions_collection s.
Proof.
  intros (Hpid & Hoid & Hsid & Hvid & Hsig & Ho & Hs & Hv & Hsn & Hvn & Hamt)
    Hsinc Hvinc.
  pose proof (inc_value_raise _ _ _ Hvinc) as ->.
  destruct (find_one_and_updateM_found students "student_id" student_id
              "wallet_balance" amount s student _ Hs Hsinc
              ltac:(discriminate)) as (ls & Hus & Hfs).
  unfold verify_recharge_payment, reraise_http.
  unfold try_except at 1.
  unfold get at 1 2. rewrite Hpid, Hoid. simpl default. rewrite Hsig. step.
  unfold getitem at 1. rewrite Hoid. step.
  step_by ltac:(apply or_raise_found;
                [exact Ho|eapply py_not_lookup; exact Hamt]).
  unfold getitem at 1. rewrite Hsid. step.
  step_by ltac:(apply or_raise_found; [exact Hs|exact Hsn]).
  unfold getitem at 1. rewrite Hvid. step.
  step_by ltac:(apply or_raise_found; [exact Hv|exact Hvn]).
  unfold getitem at 1. rewrite Hamt. step.
  step_by ltac:(exact Hus).
  unfold getitem at 1. rewrite Hamt. step.
  erewrite bind_raise_eq.
  2:{ unfold find_one_and_updateM, find_one_and_update_inc.
      erewrite modify_first_raise; [reflexivity|exact Hv|].
      unfold inc_field. rewrite Hvinc. reflexivity. }
  eexists. split; [reflexivity|]. simpl. auto.
Qed.

(** The order of 5 rupees for the vendor whose balance is "n/a". *)
Lemma verify_recharge_payment_vendor_update_fails_witness :
  exists s',
    verify_recharge_payment (world 2 "t2")
        (verification_by "order_500" "valid" "S1" "V2") campus2
      = (Raise (HTTPException 500 (exn_str (world 2 "t2") OperationFailure)),
         s') /\
    find_one "student_id" (VStr "S1") (students_collection s')
      = Some (<["wallet_balance" := VFloat 5]> S1) /\
    vendors_collection s' = vendors_collection campus2 /\
    transactions_collection s' = transactions_collection campus2.
Proof.
  apply (verify_recharge_payment_vendor_update_fails (world 2 "t2")
           (verification_by "order_500" "valid" "S1" "V2") campus2
           order_v2 S1 V2 (VStr "pay_1") (VStr "order_500") (VStr "S1")
           (VStr "V2") (VFloat 5) (VFloat 5) OperationFailure);
    [repeat split; vm_compute; reflexivity|vm_compute; reflexivity ..].
Defined.

(* ===================================================================== *)
(** * Recharge orders, once more                                         *)
(* ===================================================================== *)

Lemma lift_ret_inv {A} (o : outcome A) s a s' :
  lift o s = (Ret a, s') -> o = Ret a /\ s' = s.
Proof. unfold lift. intros [= -> ->]. auto. Qed.

Lemma create_recharge_order_ret_inv (w : World)
    (request : WalletRechargeRequest) (s s' : db) (response : document) :
  create_recharge_order w request s = (Ret response, s') ->
  exists (student vendor : document) (order_amount : Z) (order : document)
      (order_id : value),
    find_one "student_id" (VStr (rr_student_id request)) (students_collection s)
      = Some student /\
    py_not (Some student) = false /\
    find_one "vendor_id" (VStr (rr_vendor_id request)) (vendors_collection s)
      = Some vendor /\
    py_not (Some vendor) = false /\
    int_of_float (PrimFloat.mul (rr_amount request) 100) = Ret order_amount /\
    order_create w
      {| od_amount := order_amount;
         od_currency := "INR";
         od_payment_capture := 1;
         od_notes_student_id := rr_student_id request;
         od_notes_vendor_id := rr_vendor_id request |} = Ret order /\
    order !! "id" = Some order_id /\
    response = dict [
      ("id", order_id);
      ("amount", VInt order_amount);
      ("currency", VStr "INR");
      ("key", getenv w "RAZORPAY_KEY_ID") ] /\
    students_collection s' = students_collection s /\
    vendors_collection s' = vendors_collection s /\
    transactions_collection s'
      = (transactions_collection s ++ [pending_order w request order_id])%list.
Proof.
  intros H. unfold create_recharge_order in H.
  apply reraise_http_ret_inv in H.
  apply bind_ret_inv in H as (student & s1 & H1 & H).
  apply or_raise_ret_inv in H1 as (-> & Hs & Hsn).
  apply bind_ret_inv in H as (vendor & s2 & H2 & H).
  apply or_raise_ret_inv in H2 as (-> & Hv & Hvn).
  apply bind_ret_inv in H as (order_amount & s3 & Hamt & H).
  apply lift_ret_inv in Hamt as (Hamt & ->).
  cbv zeta in H.
  apply bind_ret_inv in H as (order & s4 & Hord & H).
  unfold try_except, lift in Hord.
  destruct (order_create w _) as [order'|] eqn:Hcreate; [|discriminate].
  injection Hord as -> <-.
  apply bind_ret_inv in H as (order_id & s5 & Hid & H).
  apply lift_ret_inv in Hid as (Hid & ->).
  apply bind_ret_inv in H as (inserted & s6 & Hins & H).
  rewrite insert_oneM_fresh in Hins by reflexivity.
  injection Hins as <- <-.
  apply bind_ret_inv in H as (parent & s7 & Hpar & H).
  apply (frame_eq_state _ _ _ _ (frame_get_parent eq _ _)) in Hpar as ->.
  apply bind_ret_inv in H as (u & s8 & Hnot & H).
  apply (frame_eq_state _ _ _ _ (frame_notify_parent eq _ _ _ _ _ _)) in Hnot as ->.
  apply bind_ret_inv in H as (order_id' & s9 & Hid' & H).
  apply lift_ret_inv in Hid' as (Hid' & ->).
  injection H as <- <-.
  unfold getitem in Hid, Hid'.
  destruct (order !! "id") as [i|] eqn:E; [|discriminate].
  injection Hid as <-. injection Hid' as <-.
  exists student, vendor, order_amount, order, i.
  repeat split; try assumption; reflexivity.
Qed.

Lemma find_oneM_found c k q s d :
  find_one k q (get_coll c s) = Some d ->
  find_oneM c k q s = (Ret (Some d), s).
Proof. intros H. unfold find_oneM. rewrite H. reflexivity. Qed.

Lemma or_raise_falsy c k q e s d :
  find_one k q (get_coll c s) = Some d -> py_not (Some d) = true ->
  or_raise (find_oneM c k q) e s = (Raise e, s).
Proof.
  intros Hf Hn. unfold or_raise, bind, find_oneM. rewrite Hf, Hn. reflexivity.
Qed.

(** X9. When the gateway rejects the signature the verification fails with
    status 400 and detail "Payment verification failed: " followed by the
    text of the gateway's exception, whatever else the request holds; the
    store is left as it was. *)
Theorem verify_recharge_payment_bad_signature (w : World) (payment : document)
    (s : db) (e : exn) :
  verify_payment_signature w
    (get payment "razorpay_payment_id" VNone)
    (get payment "razorpay_order_id" VNone)
    (get payment "razorpay_signature" VNone) = Raise e ->
  verify_recharge_payment w payment s
    = (Raise (HTTPException 400
                ("Payment verification failed: " +:+ exn_str w e)), s).
Proof.
  intros Hsig. unfold verify_recharge_payment, reraise_http.
  unfold try_except at 1. rewrite Hsig.
  erewrite bind_raise_eq; [|reflexivity]. reflexivity.
Qed.

Lemma verify_recharge_payment_bad_signature_witness :
  verify_recharge_payment (world 2 "t2")
      (verification_by "order_20000" "forged" "S1" "V1") campus_ordered
    = (Raise (HTTPException 400
                ("Payment verification failed: "
                 +:+ exn_str (world 2 "t2")
                       (ExternalError "Razorpay Signature Verification Failed"))),
       campus_ordered).
Proof.
  apply (verify_recharge_payment_bad_signature (world 2 "t2")
           (verification_by "order_20000" "forged" "S1" "V1") campus_ordered);
    vm_compute; reflexivity.
Defined.

(** X10. When the signature is valid and the order is stored but the
    student, or the vendor, of the request is not, the verification fails
    with status 404 and nothing is written: the order stays as it was and
    no balance changes. *)
Theorem verify_recharge_payment_unknown_account (w : World)
    (payment : document) (s : db) (order : document)
    (order_id student_id vendor_id : value) :
  verify_payment_signature w
    (get payment "razorpay_payment_id" VNone)
    (get payment "razorpay_order_id" VNone)
    (get payment "razorpay_signature" VNone) = Ret tt ->
  payment !! "razorpay_order_id" = Some order_id ->
  payment !! "student_id" = Some student_id ->
  payment !! "vendor_id" = Some vendor_id ->
  find_one "order_id" order_id (transactions_collection s) = Some order ->
  py_not (Some order) = false ->
  find_one "student_id" student_id (students_collection s) = None \/
  find_one "vendor_id" vendor_id (vendors_collection s) = None ->
  exists detail,
    verify_recharge_payment w payment s = (Raise (HTTPException 404 detail), s) /\
    (detail = "Student not found" \/ detail = "Vendor not found").
Proof.
  intros Hsig Hoid Hsid Hvid Ho Hon Hmissing.
  unfold verify_recharge_payment, reraise_http.
  unfold try_except at 1. rewrite Hsig. step.
  unfold getitem at 1. rewrite Hoid. step.
  step_by ltac:(apply or_raise_found; [exact Ho|exact Hon]).
  unfold getitem at 1. rewrite Hsid. step.
  destruct (find_one "student_id" student_id (students_collection s))
    as [student|] eqn:Hs.
  - destruct Hmissing as [|Hv]; [discriminate|].
    destruct (py_not (Some student)) eqn:Hsn.
    + exists "Student not found". split; [|auto].
      erewrite bind_raise_eq; [|eapply or_raise_falsy; [exact Hs|exact Hsn]].
      reflexivity.
    + step_by ltac:(apply or_raise_found; [exact Hs|exact Hsn]).
      unfold getitem at 1. rewrite Hvid. step.
      exists "Vendor not found". split; [|auto].
      erewrite bind_raise_eq; [|apply or_raise_missing; exact Hv]. reflexivity.
  - exists "Student not found". split; [|auto].
    erewrite bind_raise_eq; [|apply or_raise_missing; exact Hs]. reflexivity.
Qed.

Lemma verify_recharge_payment_unknown_account_witness :
  exists detail,
    verify_recharge_payment (world 2 "t2")
        (verification_by "order_20000" "valid" "S1" "V9") campus_ordered
      = (Raise (HTTPException 404 detail), campus_ordered) /\
    (detail = "Student not found" \/ detail = "Vendor not found").
Proof.
  eapply (verify_recharge_payment_unknown_account (world 2 "t2")
            (verification_by "order_20000" "valid" "S1" "V9") campus_ordered
            _ (VStr "order_20000") (VStr "S1") (VStr "V9"));
    [vm_compute; reflexivity ..|right; vm_compute; reflexivity].
Defined.

(** X14. A recharge order for a student, or a vendor, that is not stored is
    refused with status 404 ("Student not found", or "Vendor not found");
    the store is left as it was. *)
Theorem create_recharge_order_unknown_account (w : World)
    (request : WalletRechargeRequest) (s : db) :
  find_one "student_id" (VStr (rr_student_id request)) (students_collection s)
    = None \/
  find_one "vendor_id" (VStr (rr_vendor_id request)) (vendors_collection s)
    = None ->
  exists detail,
    create_recharge_order w request s = (Raise (HTTPException 404 detail), s) /\
    (detail = "Student not found" \/ detail = "Vendor not found").
Proof.
  intros Hmissing. unfold create_recharge_order, reraise_http.
  unfold try_except at 1.
  destruct (find_one "student_id" (VStr (rr_student_id request))
              (students_collection s)) as [student|] eqn:Hs.
  - destruct Hmissing as [|Hv]; [discriminate|].
    step_by ltac:(apply or_raise_found; [exact Hs|eapply found_nonempty, Hs]).
    exists "Vendor not found". split; [|auto].
    erewrite bind_raise_eq; [|apply or_raise_missing; exact Hv]. reflexivity.
  - exists "Student not found". split; [|auto].
    erewrite bind_raise_eq; [|apply or_raise_missing; exact Hs]. reflexivity.
Qed.

Lemma create_recharge_order_unknown_account_witness :
  exists detail,
    create_recharge_order (world 1 "t1") (recharge_by "S9" "V1" 200) campus
      = (Raise (HTTPException 404 detail), campus) /\
    (detail = "Student not found" \/ detail = "Vendor not found").
Proof.
  apply (create_recharge_order_unknown_account (world 1 "t1")
           (recharge_by "S9" "V1" 200) campus).
  left. vm_compute. reflexivity.
Defined.

Lemma int_of_float_raise f e :
  int_of_float f = Raise e -> e = ValueError \/ e = OverflowError.
Proof.
  unfold int_of_float. destruct (Prim2SF f); intros [= <-]; auto.
Qed.

(** X15. When the gateway raises, the order is refused with status 500 and
    detail "Failed to create payment order: " followed by the text of the
    exception, and no transaction is stored. *)
Theorem create_recharge_order_gateway_failure (w : World)
    (request : WalletRechargeRequest) (s : db) (student vendor : document)
    (order_amount : Z) (e : exn) :
  find_one "student_id" (VStr (rr_student_id request)) (students_collection s)
    = Some student ->
  find_one "vendor_id" (VStr (rr_vendor_id request)) (vendors_collection s)
    = Some vendor ->
  int_of_float (PrimFloat.mul (rr_amount request) 100) = Ret order_amount ->
  order_create w
    {| od_amount := order_amount;
       od_currency := "INR";
       od_payment_capture := 1;
       od_notes_student_id := rr_student_id request;
       od_notes_vendor_id := rr_vendor_id request |} = Raise e ->
  create_recharge_order w request s
    = (Raise (HTTPException 500
                ("Failed to create payment order: " +:+ exn_str w e)), s).
Proof.
  intros Hs Hv Hamt Hgw. unfold create_recharge_order, reraise_http.
  unfold try_except at 1.
  step_by ltac:(apply or_raise_found; [exact Hs|eapply found_nonempty, Hs]).
  step_by ltac:(apply or_raise_found; [exact Hv|eapply found_nonempty, Hv]).
  rewrite Hamt. step. cbv zeta.
  erewrite bind_raise_eq;
    [|unfold try_except, lift; rewrite Hgw; reflexivity].
  reflexivity.
Qed.

Lemma create_recharge_order_gateway_failure_witness :
  create_recharge_order (world_offline 1 "t1") (recharge 200) campus
    = (Raise (HTTPException 500
                ("Failed to create payment order: "
                 +:+ exn_str (world_offline 1 "t1")
                       (ExternalError "connection refused"))), campus).
Proof.
  apply (create_recharge_order_gateway_failure (world_offline 1 "t1")
           (recharge 200) campus S1 V1 20000
           (ExternalError "connection refused"));
    vm_compute; reflexivity.
Defined.

(** X16. When the product of the amount and 100 has no integer part (an
    infinite amount or a NaN), the order is refused with status 500 and
    detail "Internal server error: " followed by the text of the
    [OverflowError] or [ValueError]; the gateway's answer plays no role and
    nothing is stored. *)
Theorem create_recharge_order_amount_not_finite (w : World)
    (request : WalletRechargeRequest) (s : db) (student vendor : document)
    (e : exn) :
  find_one "student_id" (VStr (rr_student_id request)) (students_collection s)
    = Some student ->
  find_one "vendor_id" (VStr (rr_vendor_id request)) (vendors_collection s)
    = Some vendor ->
  int_of_float (PrimFloat.mul (rr_amount request) 100) = Raise e ->
  create_recharge_order w request s
    = (Raise (HTTPException 500
                ("Internal server error: " +:+ exn_str w e)), s) /\
  (e = ValueError \/ e = OverflowError).
Proof.
  intros Hs Hv Hamt. split; [|eapply int_of_float_raise, Hamt].
  unfold create_recharge_order, reraise_http.
  unfold try_except at 1.
  step_by ltac:(apply or_raise_found; [exact Hs|eapply found_nonempty, Hs]).
  step_by ltac:(apply or_raise_found; [exact Hv|eapply found_nonempty, Hv]).
  rewrite Hamt. erewrite bind_raise_eq; [|reflexivity].
  destruct (int_of_float_raise _ _ Hamt) as [-> | ->]; reflexivity.
Qed.

(** An amount such as [1e400] in the JSON body reads as infinity. *)
Lemma create_recharge_order_amount_not_finite_witness :
  create_recharge_order (world 1 "t1") (recharge infinity) campus
    = (Raise (HTTPException 500
                ("Internal server error: "
                 +:+ exn_str (world 1 "t1") OverflowError)), campus) /\
  (OverflowError = ValueError \/ OverflowError = OverflowError).
Proof.
  apply (create_recharge_order_amount_not_finite (world 1 "t1")
           (recharge infinity) campus S1 V1 OverflowError);
    vm_compute; reflexivity.
Defined.

Lemma optional_str_returns w v :
  str_or_none (Some v) = true -> exists r, optional_str w v = Ret r.
Proof. destruct v; simpl; try discriminate; eauto. Qed.

Lemma get_parent_returns w (student_id : value) s (student : document) :
  find_one "student_id" student_id (students_collection s) = Some student ->
  py_not (Some student) = false ->
  str_or_none (student !! "parent_phone") = true ->
  str_or_none (student !! "parent_name") = true ->
  exists parent, get_parent_by_student_id w student_id s = (Ret parent, s).
Proof.
  intros Hs Hn Hp Hnm. unfold get_parent_by_student_id.
  step_by ltac:(apply find_oneM_found; exact Hs).
  rewrite Hn. destruct (student !! "parent_phone") as [ph|] eqn:E; [|eauto].
  destruct (optional_str_returns w ph Hp) as [p ->].
  assert (exists n, optional_str w (get student "parent_name" (VStr "Parent")) = Ret n)
    as [n ->].
  { unfold get. destruct (student !! "parent_name") as [v|]; simpl.
    - apply optional_str_returns, Hnm.
    - eauto. }
  eauto.
Qed.

Lemma notify_parent_returns w parent fmt amount vendor student s a vn sn :
  amount = Ret a -> vendor !! "name" = Some vn -> student !! "name" = Some sn ->
  notify_parent w parent fmt amount vendor student s = (Ret tt, s).
Proof.
  intros -> Hv Hs. unfold notify_parent.
  destruct (has_phone parent) as [ph|]; [|reflexivity].
  step. unfold getitem. rewrite Hv, Hs. do 2 step.
  destruct (send_payment_notification_returns w ph (fmt w a vn sn)) as [b ->].
  reflexivity.
Qed.

(** X17. When the student and the vendor are stored and have a name, the
    parent fields of the student are strings or missing, and the gateway
    returns an order with an id, the handler returns that id with the
    amount in minor units, the currency "INR" and the gateway key, and
    appends one transaction: status "pending", type "recharge", the order
    id, and the amount as requested, in major units. Nothing else is
    written. *)
Theorem create_recharge_order_success (w : World)
    (request : WalletRechargeRequest) (s : db) (student vendor order : document)
    (order_amount : Z) (order_id student_name vendor_name : value) :
  find_one "student_id" (VStr (rr_student_id request)) (students_collection s)
    = Some student ->
  find_one "vendor_id" (VStr (rr_vendor_id request)) (vendors_collection s)
    = Some vendor ->
  int_of_float (PrimFloat.mul (rr_amount request) 100) = Ret order_amount ->
  order_create w
    {| od_amount := order_amount;
       od_currency := "INR";
       od_payment_capture := 1;
       od_notes_student_id := rr_student_id request;
       od_notes_vendor_id := rr_vendor_id request |} = Ret order ->
  order !! "id" = Some order_id ->
  student !! "name" = Some student_name ->
  vendor !! "name" = Some vendor_name ->
  str_or_none (student !! "parent_phone") = true ->
  str_or_none (student !! "parent_name") = true ->
  create_recharge_order w request s
    = (Ret (dict [
         ("id", order_id);
         ("amount", VInt order_amount);
         ("currency", VStr "INR");
         ("key", getenv w "RAZORPAY_KEY_ID") ]),
       set_coll transactions
         (transactions_collection s ++ [pending_order w request order_id])%list
         s).
Proof.
  intros Hs Hv Hamt Hgw Hid Hsn Hvn Hp Hpn.
  unfold create_recharge_order, reraise_http.
  unfold try_except at 1.
  step_by ltac:(apply or_raise_found; [exact Hs|eapply found_nonempty, Hs]).
  step_by ltac:(apply or_raise_found; [exact Hv|eapply found_nonempty, Hv]).
  rewrite Hamt. step. cbv zeta.
  step_by ltac:(unfold try_except, lift; rewrite Hgw; reflexivity).
  unfold getitem. rewrite Hid. step.
  step_by ltac:(apply insert_oneM_fresh; reflexivity).
  destruct (get_parent_returns w (VStr (rr_student_id request))
              (set_coll transactions
                 (transactions_collection s ++ [pending_order w request order_id])%list s)
              student Hs (found_nonempty _ _ _ _ Hs) Hp Hpn) as [parent Hpar].
  step_by ltac:(exact Hpar).
  step_by ltac:(eapply notify_parent_returns; [reflexivity|exact Hvn|exact Hsn]).
  step. reflexivity.
Qed.

Lemma create_recharge_order_success_witness :
  create_recharge_order (world 1 "t1") (recharge 200) campus
    = (Ret (dict [
         ("id", VStr "order_20000");
         ("amount", VInt 20000);
         ("currency", VStr "INR");
         ("key", getenv (world 1 "t1") "RAZORPAY_KEY_ID") ]),
       set_coll transactions
         (transactions_collection campus
          ++ [pending_order (world 1 "t1") (recharge 200)
                (VStr "order_20000")])%list
         campus).
Proof.
  eapply (create_recharge_order_success (world 1 "t1") (recharge 200) campus
            S1 V1 _ 20000 (VStr "order_20000") (VStr "Asha") (VStr "Canteen"));
    vm_compute; reflexivity.
Defined.

(** X18. The notification of [create_recharge_order] is not inside a [try]
    of its own: when the student has a parent phone and the vendor has no
    [name], the request fails with status 500 and detail "Internal server
    error: " followed by the text of the [KeyError], after the gateway order
    was created and the pending transaction was stored, which stays
    stored. *)
Theorem create_recharge_order_fails_after_storing (w : World)
    (request : WalletRechargeRequest) (s : db) (student vendor order : document)
    (order_amount : Z) (order_id : value) (parent_phone : string) :
  find_one "student_id" (VStr (rr_student_id request)) (students_collection s)
    = Some student ->
  find_one "vendor_id" (VStr (rr_vendor_id request)) (vendors_collection s)
    = Some vendor ->
  int_of_float (PrimFloat.mul (rr_amount request) 100) = Ret order_amount ->
  order_create w
    {| od_amount := order_amount;
       od_currency := "INR";
       od_payment_capture := 1;
       od_notes_student_id := rr_student_id request;
       od_notes_vendor_id := rr_vendor_id request |} = Ret order ->
  order !! "id" = Some order_id ->
  student !! "parent_phone" = Some (VStr parent_phone) ->
  parent_phone <> "" ->
  str_or_none (student !! "parent_name") = true ->
  vendor !! "name" = None ->
  create_recharge_order w request s
    = (Raise (HTTPException 500
                ("Internal server error: " +:+ exn_str w (KeyError "name"))),
       set_coll transactions
         (transactions_collection s ++ [pending_order w request order_id])%list
         s).
Proof.
  intros Hs Hv Hamt Hgw Hid Hph Hne Hpn Hvn.
  unfold create_recharge_order, reraise_http.
  unfold try_except at 1.
  step_by ltac:(apply or_raise_found; [exact Hs|eapply found_nonempty, Hs]).
  step_by ltac:(apply or_raise_found; [exact Hv|eapply found_nonempty, Hv]).
  rewrite Hamt. step. cbv zeta.
  step_by ltac:(unfold try_except, lift; rewrite Hgw; reflexivity).
  unfold getitem at 1. rewrite Hid. step.
  step_by ltac:(apply insert_oneM_fresh; reflexivity).
  assert (exists n, optional_str w (get student "parent_name" (VStr "Parent")) = Ret n)
    as [n Hn].
  { unfold get. destruct (student !! "parent_name") as [v|]; simpl.
    - apply optional_str_returns, Hpn.
    - eauto. }
  step_by ltac:(unfold get_parent_by_student_id;
                erewrite bind_ret_eq; [|apply find_oneM_found; exact Hs];
                rewrite (found_nonempty _ _ _ _ Hs), Hph; simpl optional_str;
                step; rewrite Hn; step; reflexivity).
  apply String.eqb_neq in Hne.
  erewrite bind_raise_eq;
    [|unfold notify_parent, has_phone; rewrite Hne; step;
      unfold getitem; rewrite Hvn; reflexivity].
  reflexivity.
Qed.

Lemma create_recharge_order_fails_after_storing_witness :
  create_recharge_order (world 1 "t1") (recharge_by "S1" "V2" 200) campus2
    = (Raise (HTTPException 500
                ("Internal server error: "
                 +:+ exn_str (world 1 "t1") (KeyError "name"))),
       set_coll transactions
         (transactions_collection campus2
          ++ [pending_order (world 1 "t1") (recharge_by "S1" "V2" 200)
                (VStr "order_20000")])%list
         campus2).
Proof.
  eapply (create_recharge_order_fails_after_storing (world 1 "t1")
            (recharge_by "S1" "V2" 200) campus2 S1 V2 _ 20000
            (VStr "order_20000") "+911234567890");
    try (vm_compute; reflexivity).
  vm_compute. discriminate.
Defined.

(* ===================================================================== *)
(** * From the order to the wallet                                       *)
(* ===================================================================== *)

Lemma find_one_app_new k q l d :
  find_one k q l = None -> matches k q d = true ->
  find_one k q (l ++ [d])%list = Some d.
Proof.
  unfold find_one. induction l as [|x l IH]; simpl.
  - intros _ ->. reflexivity.
  - destruct (matches k q x); [discriminate|]. exact IH.
Qed.

(** X19. An order that [create_recharge_order] returned, whose id was not
    in use before, is found by [verify_recharge_payment]: with a signature
    that verifies, the verification succeeds, increments the student's
    wallet balance and the vendor's balance by the amount of the order
    request (in major units) and returns the new wallet balance; the stored
    order is the pending order, completed. *)
Theorem create_then_verify (w1 w2 : World) (request : WalletRechargeRequest)
    (payment response : document) (s s1 : db) (order_id : string)
    (payment_id new_wallet_balance new_vendor_balance : value)
    (student vendor : document) :
  create_recharge_order w1 request s = (Ret response, s1) ->
  response !! "id" = Some (VStr order_id) ->
  find_one "order_id" (VStr order_id) (transactions_collection s) = None ->
  payment !! "razorpay_payment_id" = Some payment_id ->
  payment !! "razorpay_order_id" = Some (VStr order_id) ->
  payment !! "student_id" = Some (VStr (rr_student_id request)) ->
  payment !! "vendor_id" = Some (VStr (rr_vendor_id request)) ->
  verify_payment_signature w2 payment_id (VStr order_id)
    (get payment "razorpay_signature" VNone) = Ret tt ->
  find_one "student_id" (VStr (rr_student_id request)) (students_collection s)
    = Some student ->
  find_one "vendor_id" (VStr (rr_vendor_id request)) (vendors_collection s)
    = Some vendor ->
  inc_value (student !! "wallet_balance") (VFloat (rr_amount request))
    = Ret new_wallet_balance ->
  inc_value (vendor !! "balance") (VFloat (rr_amount request))
    = Ret new_vendor_balance ->
  exists response2 s2,
    verify_recharge_payment w2 payment s1 = (Ret response2, s2) /\
    response2 !! "new_balance" = Some new_wallet_balance /\
    find_one "student_id" (VStr (rr_student_id request)) (students_collection s2)
      = Some (<["wallet_balance" := new_wallet_balance]> student) /\
    find_one "vendor_id" (VStr (rr_vendor_id request)) (vendors_collection s2)
      = Some (<["balance" := new_vendor_balance]> vendor) /\
    find_one "order_id" (VStr order_id) (transactions_collection s2)
      = Some (completed w2 payment_id
                (pending_order w1 request (VStr order_id))).
Proof.
  intros Hcreate Hid Hfresh Hpid Hoid Hsid Hvid Hsig Hs Hv Hsinc Hvinc.
  apply create_recharge_order_ret_inv in Hcreate
    as (student' & vendor' & order_amount & order & oid & Hs' & _ & Hv' & _
        & _ & _ & _ & -> & Hss & Hvs & Hts).
  change (Some oid = Some (VStr order_id)) in Hid. injection Hid as ->.
  destruct (verify_recharge_payment_state w2 payment s1
              (pending_order w1 request (VStr order_id)) student vendor
              payment_id (VStr order_id) (VStr (rr_student_id request))
              (VStr (rr_vendor_id request)) (VFloat (rr_amount request))
              new_wallet_balance new_vendor_balance)
    as (s2 & Hrun & Hfs & Hfv & Hfo & _); [|exact Hsinc|exact Hvinc|].
  { repeat split; try assumption.
    - rewrite Hts. apply find_one_app_new; [exact Hfresh|].
      unfold matches, pending_order. simpl.
      apply String.eqb_refl.
    - rewrite Hss. exact Hs.
    - rewrite Hvs. exact Hv.
    - eapply found_nonempty, Hs.
    - eapply found_nonempty, Hv. }
  do 2 eexists. split; [exact Hrun|]. split; [reflexivity|]. auto.
Qed.

Lemma create_then_verify_witness :
  exists response2 s2,
    verify_recharge_payment (world 2 "t2") (verification "order_20000")
        campus_ordered = (Ret response2, s2) /\
    response2 !! "new_balance" = Some (VFloat 200) /\
    find_one "student_id" (VStr "S1") (students_collection s2)
      = Some (<["wallet_balance" := VFloat 200]> S1) /\
    find_one "vendor_id" (VStr "V1") (vendors_collection s2)
      = Some (<["balance" := VFloat 250]> V1) /\
    find_one "order_id" (VStr "order_20000") (transactions_collection s2)
      = Some (completed (world 2 "t2") (VStr "pay_1")
                (pending_order (world 1 "t1") (recharge 200)
                   (VStr "order_20000"))).
Proof.
  eapply (create_then_verify (world 1 "t1") (world 2 "t2") (recharge 200)
            (verification "order_20000") _ campus campus_ordered
            "order_20000" (VStr "pay_1") (VFloat 200) (VFloat 250) S1 V1);
    vm_compute; reflexivity.
Defined.

(* ===================================================================== *)
(** * The parent's phone                                                 *)
(* ===================================================================== *)

Lemma update_one_set_matched_none k q fields l :
  find_one k q l = None -> update_one_set_matched k q fields l = (0, l).
Proof.
  intros H. unfold update_one_set_matched.
  rewrite (modify_first_none _ _ _ H). reflexivity.
Qed.

Lemma update_one_set_matched_found k q fields l d :
  find_one k q l = Some d ->
  matches k q (set_fields fields d) = true ->
  exists l', update_one_set_matched k q fields l = (1, l') /\
    find_one k q l' = Some (set_fields fields d) /\ length l' = length l.
Proof.
  intros Hf Hm. unfold update_one_set_matched.
  destruct (modify_first_spec (matches k q)
              (fun d => Ret (set_fields fields d)) l d _ Hf eq_refl)
    as (l' & Hl' & Hlen & Hp).
  rewrite Hl'. eauto.
Qed.

Lemma set_coll_same c s : set_coll c (get_coll c s) s = s.
Proof. destruct c, s; reflexivity. Qed.

(** X20. For a student who is not stored, [update_parent_phone] answers
    with status 500, not 404: the [HTTPException] with status 404 is raised
    inside the [try] and caught by [except Exception], and its text becomes
    the detail of the 500. The store is left as it was. *)
Theorem update_parent_phone_unknown_student (w : World)
    (parent_update : ParentUpdate) (s : db) :
  find_one "student_id" (VStr (pu_student_id parent_update))
    (students_collection s) = None ->
  update_parent_phone w parent_update s
    = (Raise (HTTPException 500
                (exn_str w (HTTPException 404 "Student not found"))), s).
Proof.
  intros Hs. unfold update_parent_phone, try_except.
  erewrite bind_ret_eq.
  2:{ unfold update_one_matchedM.
      rewrite (update_one_set_matched_none _ _ _ _ Hs).
      rewrite set_coll_same. reflexivity. }
  reflexivity.
Qed.

Lemma update_parent_phone_unknown_student_witness :
  update_parent_phone (world 5 "t5")
      {| pu_student_id := "S9"; pu_phone := "+910000000000" |} campus
    = (Raise (HTTPException 500
                (exn_str (world 5 "t5")
                   (HTTPException 404 "Student not found"))), campus).
Proof.
  apply (update_parent_phone_unknown_student (world 5 "t5")
           {| pu_student_id := "S9"; pu_phone := "+910000000000" |} campus);
    vm_compute; reflexivity.
Defined.

(** X21. For a stored student, [update_parent_phone] succeeds and sets
    [parent_phone] on the student's document, leaving vendors and
    transactions as they were; [get_parent_by_student_id] then returns a
    parent with that phone (and the parent name, when the stored one is
    acceptable). *)
Theorem update_parent_phone_then_get_parent (w w2 : World)
    (parent_update : ParentUpdate) (s : db) (student : document)
    (parent_name : option string) :
  find_one "student_id" (VStr (pu_student_id parent_update))
    (students_collection s) = Some student ->
  optional_str w2 (get student "parent_name" (VStr "Parent")) = Ret parent_name ->
  exists s',
    update_parent_phone w parent_update s
      = (Ret (dict [("message",
                     VStr "Parent phone number updated successfully")]), s') /\
    find_one "student_id" (VStr (pu_student_id parent_update))
        (students_collection s')
      = Some (<["parent_phone" := VStr (pu_phone parent_update)]> student) /\
    vendors_collection s' = vendors_collection s /\
    transactions_collection s' = transactions_collection s /\
    get_parent_by_student_id w2 (VStr (pu_student_id parent_update)) s'
      = (Ret (Some {| phone := Some (pu_phone parent_update);
                      name := parent_name |}), s').
Proof.
  intros Hs Hname.
  destruct (update_one_set_matched_found "student_id"
              (VStr (pu_student_id parent_update))
              [("parent_phone", VStr (pu_phone parent_update))] _ _ Hs)
    as (l' & Hupd & Hfind & _).
  { simpl. rewrite matches_insert_ne by discriminate.
    eapply find_one_matches, Hs. }
  simpl in Hfind.
  exists (set_coll students l' s). split; [|split; [exact Hfind|]].
  - unfold update_parent_phone, try_except.
    erewrite bind_ret_eq.
    2:{ unfold update_one_matchedM. simpl get_coll. rewrite Hupd. reflexivity. }
    reflexivity.
  - split; [reflexivity|]. split; [reflexivity|].
    unfold get_parent_by_student_id.
    step_by ltac:(apply find_oneM_found; exact Hfind).
    erewrite py_not_lookup by apply lookup_insert_eq.
    rewrite lookup_insert_eq. simpl optional_str. step.
    unfold get in *. rewrite lookup_insert_ne by discriminate.
    rewrite Hname. step. reflexivity.
Qed.

(** A student without parent gets one. *)
Lemma update_parent_phone_then_get_parent_witness :
  exists s',
    update_parent_phone (world 5 "t5")
        {| pu_student_id := "S2"; pu_phone := "+910000000000" |} campus2
      = (Ret (dict [("message",
                     VStr "Parent phone number updated successfully")]), s') /\
    find_one "student_id" (VStr "S2") (students_collection s')
      = Some (<["parent_phone" := VStr "+910000000000"]> S2) /\
    vendors_collection s' = vendors_collection campus2 /\
    transactions_collection s' = transactions_collection campus2 /\
    get_parent_by_student_id (world 6 "t6") (VStr "S2") s'
      = (Ret (Some {| phone := Some "+910000000000";
                      name := Some "Parent" |}), s').
Proof.
  apply (update_parent_phone_then_get_parent (world 5 "t5") (world 6 "t6")
           {| pu_student_id := "S2"; pu_phone := "+910000000000" |} campus2
           S2 (Some "Parent"));
    vm_compute; reflexivity.
Defined.

(* ===================================================================== *)
(** * The vendor queries and the OTP check                               *)
(* ===================================================================== *)

(** X22. For a stored vendor that has a name and a UPI id, [GET
    /vendor/{id}] returns the stored [vendor_id], [name] and [upi_id], and
    [balance] with 0 standing in for a missing field; the response has no
    other key, so no other stored field of the vendor is disclosed. *)
Theorem get_vendor_answer (vendor_id : string) (s : db) (vendor : document)
    (vendor_name upi_id : value) :
  find_one "vendor_id" (VStr vendor_id) (vendors_collection s) = Some vendor ->
  vendor !! "name" = Some vendor_name ->
  vendor !! "upi_id" = Some upi_id ->
  exists response stored_id,
    get_vendor vendor_id s = (Ret response, s) /\
    vendor !! "vendor_id" = Some stored_id /\
    response !! "vendor_id" = Some stored_id /\
    response !! "name" = Some vendor_name /\
    response !! "upi_id" = Some upi_id /\
    response !! "balance" = Some (get vendor "balance" (VInt 0)) /\
    (forall k, is_Some (response !! k) ->
       k = "vendor_id" \/ k = "name" \/ k = "upi_id" \/ k = "balance").
Proof.
  intros Hv Hn Hu.
  destruct (matches_lookup "vendor_id" (VStr vendor_id) vendor
              ltac:(discriminate) (find_one_matches _ _ _ _ Hv)) as [vid Hvid].
  do 2 eexists. split; [|split; [exact Hvid|]].
  - unfold get_vendor.
    step_by ltac:(apply or_raise_found; [exact Hv|eapply found_nonempty, Hv]).
    unfold getitem. rewrite Hvid, Hn, Hu. do 3 step. reflexivity.
  - repeat split; try reflexivity.
    intros k [v Hk]. unfold dict in Hk. simpl in Hk.
    repeat (rewrite lookup_insert in Hk; case_decide; [auto|]).
    rewrite lookup_empty in Hk. discriminate.
Qed.

Lemma get_vendor_answer_witness :
  exists response stored_id,
    get_vendor "V1" campus = (Ret response, campus) /\
    V1 !! "vendor_id" = Some stored_id /\
    response !! "vendor_id" = Some stored_id /\
    response !! "name" = Some (VStr "Canteen") /\
    response !! "upi_id" = Some (VStr "canteen@upi") /\
    response !! "balance" = Some (get V1 "balance" (VInt 0)) /\
    (forall k, is_Some (response !! k) ->
       k = "vendor_id" \/ k = "name" \/ k = "upi_id" \/ k = "balance").
Proof.
  apply (get_vendor_answer "V1" campus V1 (VStr "Canteen")
           (VStr "canteen@upi"));
    vm_compute; reflexivity.
Defined.

Lemma stringify_ids_map w l :
  forallb has_id l = true ->
  stringify_ids w l
    = Ret (map (fun t => <["_id" := VStr (py_str w (get t "_id" VNone))]> t) l).
Proof.
  induction l as [|t l IH]; simpl; [reflexivity|].
  intros H. apply andb_true_iff in H as [Ht Hl]. rewrite (IH Hl).
  unfold has_id in Ht. unfold getitem, get.
  destruct (t !! "_id"); [reflexivity|discriminate].
Qed.

Lemma stringify_ids_raise w l :
  forallb has_id l = false -> stringify_ids w l = Raise (KeyError "_id").
Proof.
  induction l as [|t l IH]; simpl; [discriminate|].
  unfold has_id at 1, getitem.
  destruct (t !! "_id"); simpl; [|reflexivity].
  intros H. rewrite (IH H). reflexivity.
Qed.

(** X23. For a stored vendor, [GET /vendor/transactions/{id}] returns the
    vendor's transactions in the order in which they were stored, each
    whole with only [_id] replaced by its text, and the vendor's balance
    with 0 standing in for a missing field. *)
Theorem get_vendor_transactions_answer (w : World) (vendor_id : string)
    (s : db) (vendor : document) :
  find_one "vendor_id" (VStr vendor_id) (vendors_collection s) = Some vendor ->
  forallb has_id (find "vendor_id" (VStr vendor_id) (transactions_collection s))
    = true ->
  get_vendor_transactions w vendor_id s
    = (Ret (map (fun t => <["_id" := VStr (py_str w (get t "_id" VNone))]> t)
              (find "vendor_id" (VStr vendor_id) (transactions_collection s)),
            get vendor "balance" (VInt 0)), s).
Proof.
  intros Hv Hids. unfold get_vendor_transactions.
  step_by ltac:(apply or_raise_found; [exact Hv|eapply found_nonempty, Hv]).
  step. simpl get_coll. rewrite (stringify_ids_map _ _ Hids). step. reflexivity.
Qed.

Lemma get_vendor_transactions_answer_witness :
  get_vendor_transactions (world 4 "t4") "V1" campus_traded
    = (Ret (map (fun t => <["_id" := VStr (py_str (world 4 "t4")
                                          (get t "_id" VNone))]> t)
              (find "vendor_id" (VStr "V1")
                 (transactions_collection campus_traded)),
            get (<["balance" := VFloat 20]> V1) "balance" (VInt 0)),
       campus_traded).
Proof.
  apply (get_vendor_transactions_answer (world 4 "t4") "V1" campus_traded
           (<["balance" := VFloat 20]> V1));
    vm_compute; reflexivity.
Defined.

Lemma verify_otp_returns w phone_number otp_code service_sid :
  exists approved,
    verify_otp w phone_number otp_code service_sid = Ret approved /\
    (approved = true <->
       twilio_Client w = Ret tt /\
       verification_checks_create w service_sid phone_number otp_code
         = Ret "approved").
Proof.
  unfold verify_otp, otry, obind.
  destruct (twilio_Client w) as [[]|e0].
  - destruct (verification_checks_create w service_sid phone_number otp_code)
      as [st|e1].
    + eexists. split; [reflexivity|]. split.
      * intros H. apply String.eqb_eq in H. subst. auto.
      * intros (_ & [= ->]). reflexivity.
    + exists false. split; [reflexivity|].
      split; [discriminate|]. intros (_ & H). discriminate.
  - exists false. split; [reflexivity|].
    split; [discriminate|]. intros (H & _). discriminate.
Qed.

(** X24. [POST /verify_otp] always answers: its status-400 branch cannot
    be reached because [verify_otp] catches every exception itself. The
    answer is [verified = true] exactly when the provider's check returned
    the status "approved", and false on every provider error; the store is
    left as it was. *)
Theorem verify_payment_otp_never_fails (w : World)
    (verification : OTPVerification) (s : db) :
  exists verified,
    verify_payment_otp w verification s = (Ret verified, s) /\
    (verified = true <->
       twilio_Client w = Ret tt /\
       verification_checks_create w (ov_service_sid verification)
         (ov_phone_number verification) (ov_otp_code verification)
         = Ret "approved").
Proof.
  destruct (verify_otp_returns w (ov_phone_number verification)
              (ov_otp_code verification) (ov_service_sid verification))
    as (b & Hb & Hiff).
  exists b. split; [|exact Hiff].
  unfold verify_payment_otp, try_except. rewrite Hb. reflexivity.
Qed.

(** X25. For a student id and a vendor id that are not stored, the four
    query handlers answer with status 404 ("Student not found", "Vendor not
    found") and [get_parent_by_student_id] returns [None]; the store is
    left as it was. *)
Theorem queries_unknown_id (w : World) (student_id vendor_id : string) (s : db) :
  find_one "student_id" (VStr student_id) (students_collection s) = None ->
  find_one "vendor_id" (VStr vendor_id) (vendors_collection s) = None ->
  get_student w student_id s
    = (Raise (HTTPException 404 "Student not found"), s) /\
  get_student_transactions w student_id s
    = (Raise (HTTPException 404 "Student not found"), s) /\
  get_vendor vendor_id s
    = (Raise (HTTPException 404 "Vendor not found"), s) /\
  get_vendor_transactions w vendor_id s
    = (Raise (HTTPException 404 "Vendor not found"), s) /\
  get_parent_by_student_id w (VStr student_id) s = (Ret None, s).
Proof.
  intros Hs Hv.
  unfold get_student, get_student_transactions, get_vendor,
    get_vendor_transactions, get_parent_by_student_id.
  repeat split;
    try (erewrite bind_raise_eq; [reflexivity|apply or_raise_missing; assumption]).
  unfold bind, find_oneM, get_coll. rewrite Hs. reflexivity.
Qed.

Lemma queries_unknown_id_witness :
  get_student (world 4 "t4") "S9" campus
    = (Raise (HTTPException 404 "Student not found"), campus) /\
  get_student_transactions (world 4 "t4") "S9" campus
    = (Raise (HTTPException 404 "Student not found"), campus) /\
  get_vendor "V9" campus
    = (Raise (HTTPException 404 "Vendor not found"), campus) /\
  get_vendor_transactions (world 4 "t4") "V9" campus
    = (Raise (HTTPException 404 "Vendor not found"), campus) /\
  get_parent_by_student_id (world 4 "t4") (VStr "S9") campus
    = (Ret None, campus).
Proof.
  apply (queries_unknown_id (world 4 "t4") "S9" "V9" campus);
    vm_compute; reflexivity.
Defined.
